(** * EncodingManager: registry, fit/transform sequencing and serialization

    A shallow embedding of [src/encoding/manager.py].  The manager is a thin
    sequencer over three collaborators that live in sibling modules (the
    missing-value handler, the encoder strategies and the memory profiler)
    and over the [joblib] codec.  Python objects are mutable and exceptions
    do not roll state back, so every operation is a function from a state to
    a new state together with either an exception or a value. *)

From Stdlib Require Import ZArith Ascii String List.
From stdpp Require Import gmap strings list fin_maps.

Local Open Scope string_scope.
Local Open Scope list_scope.

(** ** Python exceptions *)

(** An exception value: the name of its class and its argument. *)
Record exn := Exn { exn_type : string; exn_arg : string }.

(** [ValueError(f"Encoding '{encoding}' not registered")], line 39. *)
Definition not_registered (encoding : string) : exn :=
  Exn "ValueError" ("Encoding '" +:+ encoding +:+ "' not registered").

(** [KeyError(key)], raised by [payload[key]] on a dict without [key]. *)
Definition key_error (key : string) : exn := Exn "KeyError" key.

(** [AttributeError], raised by [obj.attr] when the class of [obj] named
    [ty] has no attribute [attr]. *)
Definition attribute_error (ty attr : string) : exn :=
  Exn "AttributeError" ("'" +:+ ty +:+ "' object has no attribute '" +:+ attr +:+ "'").

(** [FileNotFoundError], raised by [joblib.load] on a path never written. *)
Definition file_not_found (path : string) : exn := Exn "FileNotFoundError" path.

(** ** [str.lower] *)

(** A Python string is held as the bytes of its UTF-8 encoding.  [lower]
    maps the letters A-Z to a-z and leaves every other byte: it is
    [str.lower] on the strings that hold ASCII characters only. *)
Definition lower_ascii (c : ascii) : ascii :=
  let n := nat_of_ascii c in
  if (65 <=? n)%nat && (n <=? 90)%nat then ascii_of_nat (n + 32) else c.

Fixpoint lower (s : string) : string :=
  match s with
  | EmptyString => EmptyString
  | String c s' => String (lower_ascii c) (lower s')
  end.

Fixpoint is_ascii (s : string) : bool :=
  match s with
  | EmptyString => true
  | String c s' => (nat_of_ascii c <? 128)%nat && is_ascii s'
  end.

(** [str.lower] itself follows the case mappings of Unicode, which are a
    table of the Python runtime and not of this repository.  It is taken
    as a function of which two facts are used: on an ASCII string it is
    [lower], and its result holds none of the letters A-Z (they all have a
    lower-case mapping, and no character maps to one of them), so that
    [lower] leaves the result as it is. *)
Class PyStr := {
  str_lower : string -> string;
  str_lower_ascii : forall s, is_ascii s = true -> str_lower s = lower s;
  str_lower_lowered : forall s, lower (str_lower s) = str_lower s;
}.

(** ** A state monad whose state survives exceptions *)

Definition M (S A : Type) : Type := S -> S * (exn + A).

Definition ret {S A} (a : A) : M S A := fun s => (s, inr a).
Definition raise {S A} (e : exn) : M S A := fun s => (s, inl e).
Definition bind {S A B} (c : M S A) (k : A -> M S B) : M S B :=
  fun s => match c s with
           | (s', inl e) => (s', inl e)
           | (s', inr a) => k a s'
           end.

Declare Scope py_scope.
Delimit Scope py_scope with py.
Notation "x <- c ;; k" := (bind c (fun x => k))
  (at level 100, c at next level, right associativity) : py_scope.
Notation "c ;;; k" := (bind c (fun _ => k))
  (at level 100, right associativity) : py_scope.

(** ** The collaborators the manager consumes *)

(** The sibling modules [.missing], [.memory_manager] and [.encoders], and
    the data types of pandas, are not part of this file of the repository.
    They are taken as parameters: a method of a collaborator is a function
    from the object's state to its new state and an exception or a result.
    Frames and series are values: a collaborator does not change its
    arguments in place.  The constructors of the handler and of the
    profiler are called the way their own modules define them and are
    taken to return; the constructor of an encoder class is any callable
    that was registered, called with whatever keywords the caller
    forwards, and may raise. *)
Class Collaborators := {
  Frame : Type;                   (* pd.DataFrame *)
  Series : Type;                  (* pd.Series *)
  Sentinel : Type;                (* str | int | float | None *)
  Kwargs : Type;                  (* the forwarded encoder_kwargs *)
  EncState : Type;                (* the attributes of an encoder object *)
  MHState : Type;                 (* the attributes of a MissingHandler *)
  MMState : Type;                 (* the attributes of a MemoryManager *)
  nan : Sentinel;                 (* np.nan *)
  no_kwargs : Kwargs;             (* the empty keyword dictionary *)
  (* MissingHandler(sentinel=s), and MissingHandler() for None *)
  mh_new : option Sentinel -> MHState;
  mh_fit_transform : MHState -> Frame -> MHState * (exn + Frame);
  mh_transform : MHState -> Frame -> MHState * (exn + Frame);
  (* MissingHandler.fit, if the class has one: the manager never calls it
     on its handler *)
  mh_fit : option (MHState -> Frame -> Series -> MHState * (exn + unit));
  (* MemoryManager(), and the truth value `memory_manager or ...` tests *)
  mm_new : MMState;
  mm_truthy : MMState -> bool;
  mm_enter : string -> MMState -> MMState;
  mm_exit : string -> MMState -> MMState;
}.

Section Manager.
Context `{Collaborators}.
Context `{PyStr}.

(** A class satisfying the [Encoder] protocol (lines 16-18): its
    [__name__], its constructor and its two methods, and a
    [fit_transform] if it has one, which the protocol does not ask for.
    A constructor may raise, as any call may. *)
Record encoder_cls := {
  cls_name : string;
  cls_new : Kwargs -> exn + EncState;
  cls_fit : EncState -> Frame -> Series -> EncState * (exn + unit);
  cls_transform : EncState -> Frame -> EncState * (exn + Frame);
  cls_fit_transform : option (EncState -> Frame -> EncState * (exn + Frame));
}.

(** The Python values the manager stores in its attributes and in the
    payload.  Attributes are untyped: [load] assigns whatever the payload
    holds. *)
Inductive pyval :=
  | PInt (z : Z)
  | PStr (s : string)
  | PEncoder (c : encoder_cls) (st : EncState)
  | PHandler (h : MHState).

(** [v.__class__.__name__] *)
Definition type_name (v : pyval) : string :=
  match v with
  | PInt _ => "int"
  | PStr _ => "str"
  | PEncoder c _ => cls_name c
  | PHandler _ => "MissingHandler"
  end.

(** Attribute lookup is by name on whatever object the attribute holds
    (the protocol is structural): a bound method takes the arguments and
    gives the object as the call left it with the outcome of the call. *)
Definition bound {S A} (wrap : S -> pyval) (r : S * (exn + A)) : pyval * (exn + A) :=
  (wrap (fst r), snd r).

(** [v.fit] *)
Definition getattr_fit (v : pyval)
    : option (Frame -> Series -> pyval * (exn + unit)) :=
  match v with
  | PEncoder c st => Some (fun X y => bound (PEncoder c) (cls_fit c st X y))
  | PHandler h => (fun f X y => bound PHandler (f h X y)) <$> mh_fit
  | PInt _ | PStr _ => None
  end.

(** [v.transform] *)
Definition getattr_transform (v : pyval) : option (Frame -> pyval * (exn + Frame)) :=
  match v with
  | PEncoder c st => Some (fun X => bound (PEncoder c) (cls_transform c st X))
  | PHandler h => Some (fun X => bound PHandler (mh_transform h X))
  | PInt _ | PStr _ => None
  end.

(** [v.fit_transform] *)
Definition getattr_fit_transform (v : pyval)
    : option (Frame -> pyval * (exn + Frame)) :=
  match v with
  | PEncoder c st =>
      (fun f X => bound (PEncoder c) (f st X)) <$> cls_fit_transform c
  | PHandler h => Some (fun X => bound PHandler (mh_fit_transform h X))
  | PInt _ | PStr _ => None
  end.

(** What a recording test double sees, oldest first: the constructors
    called, the calls made through [self.missing_handler] and through
    [self.encoder], and the profiler scopes. *)
Inductive event :=
  | NewEncoder (c : encoder_cls) (kw : Kwargs)
  | NewHandler (s : option Sentinel)
  | NewProfiler
  | HandlerFitTransform (X : Frame)
  | HandlerTransform (X : Frame)
  | EncoderFit (X : Frame) (y : Series)
  | EncoderTransform (X : Frame)
  | ProfileEnter (label : string)
  | ProfileExit (label : string).

(** The process: the class attribute [_registry], the files written by
    [joblib.dump] and the calls observed so far. *)
Record world := World {
  registry : gmap string encoder_cls;
  disk : gmap string (gmap string pyval);
  trace : list event;
}.

Definition log (e : event) (w : world) : world :=
  World (registry w) (disk w) (trace w ++ [e]).

(** An [EncodingManager] object (lines 40-43). *)
Record manager := Manager {
  encoder_cls_of : encoder_cls;
  encoder : pyval;
  memory_manager : MMState;
  missing_handler : pyval;
}.

Definition set_encoder (v : pyval) (m : manager) : manager :=
  Manager (encoder_cls_of m) v (memory_manager m) (missing_handler m).
Definition set_missing_handler (v : pyval) (m : manager) : manager :=
  Manager (encoder_cls_of m) (encoder m) (memory_manager m) v.
Definition set_memory_manager (p : MMState) (m : manager) : manager :=
  Manager (encoder_cls_of m) (encoder m) p (missing_handler m).

(** ** Construction (lines 31-43) *)

(** Lines 38-40: the registry check and the lookup. *)
Definition resolve (encoding : string) : M world encoder_cls :=
  fun w =>
    match registry w !! encoding with
    | Some c => (w, inr c)
    | None => (w, inl (not_registered encoding))
    end.

(** Line 41: [self.encoder_cls] called with the forwarded keywords. *)
Definition new_encoder (c : encoder_cls) (kw : Kwargs) : M world EncState :=
  fun w => (log (NewEncoder c kw) w, cls_new c kw).

(** [memory_manager or MemoryManager()]: the injected profiler when it is
    given and truthy, else a new one. *)
Definition or_new_profiler (injected : option MMState) : M world MMState :=
  fun w =>
    match injected with
    | Some p => if mm_truthy p then (w, inr p) else (log NewProfiler w, inr mm_new)
    | None => (log NewProfiler w, inr mm_new)
    end.

(** [MissingHandler(sentinel=s)], and [MissingHandler()] for [None]. *)
Definition new_handler (s : option Sentinel) : M world pyval :=
  fun w => (log (NewHandler s) w, inr (PHandler (mh_new s))).

Definition init (encoding : string) (injected : option MMState)
    (missing_sentinel : Sentinel) (kw : Kwargs) : M world manager :=
  (c <- resolve encoding ;;
   st <- new_encoder c kw ;;
   p <- or_new_profiler injected ;;
   mh <- new_handler (Some missing_sentinel) ;;
   ret (Manager c (PEncoder c st) p mh))%py.

(** The call with every argument left at its default:
    [encoding="onehot"], [memory_manager=None], [missing_sentinel=np.nan]. *)
Definition init_default : M world manager := init "onehot" None nan no_kwargs.

(** A call that leaves only [encoding] at its default. *)
Definition init_default_encoding (injected : option MMState)
    (missing_sentinel : Sentinel) (kw : Kwargs) : M world manager :=
  init "onehot" injected missing_sentinel kw.

(** ** Registration (lines 45-47) *)

Definition register (name : string) (c : encoder_cls) : M world unit :=
  fun w => (World (<[name := c]> (registry w)) (disk w) (trace w), inr tt).

(** ** Method calls on the attributes *)

(** A method of the manager runs on the manager and the process. *)
Definition method (A : Type) : Type := M (manager * world) A.

(** [self.missing_handler.fit_transform(X)] *)
Definition handler_fit_transform (X : Frame) : method Frame :=
  fun '(m, w) =>
    match getattr_fit_transform (missing_handler m) with
    | Some f =>
        let '(v', r) := f X in
        ((set_missing_handler v' m, log (HandlerFitTransform X) w), r)
    | None =>
        ((m, w), inl (attribute_error (type_name (missing_handler m)) "fit_transform"))
    end.

(** [self.missing_handler.transform(X)] *)
Definition handler_transform (X : Frame) : method Frame :=
  fun '(m, w) =>
    match getattr_transform (missing_handler m) with
    | Some f =>
        let '(v', r) := f X in
        ((set_missing_handler v' m, log (HandlerTransform X) w), r)
    | None =>
        ((m, w), inl (attribute_error (type_name (missing_handler m)) "transform"))
    end.

(** [self.encoder.fit(X_prep, y)] *)
Definition encoder_fit (X_prep : Frame) (y : Series) : method unit :=
  fun '(m, w) =>
    match getattr_fit (encoder m) with
    | Some f =>
        let '(v', r) := f X_prep y in
        ((set_encoder v' m, log (EncoderFit X_prep y) w), r)
    | None => ((m, w), inl (attribute_error (type_name (encoder m)) "fit"))
    end.

(** [self.encoder.transform(X_prep)] *)
Definition encoder_transform (X_prep : Frame) : method Frame :=
  fun '(m, w) =>
    match getattr_transform (encoder m) with
    | Some f =>
        let '(v', r) := f X_prep in
        ((set_encoder v' m, log (EncoderTransform X_prep) w), r)
    | None => ((m, w), inl (attribute_error (type_name (encoder m)) "transform"))
    end.

(** Modelled from the spec: [MemoryManager.profile], the context manager of
    the sibling module [.memory_manager].  The spec gives it as a scoped
    acquisition taking a phase label whose release is guaranteed on every
    exit path, exceptions of the wrapped call included; it neither fails nor
    replaces the outcome of its body. *)
Definition profile {A} (label : string) (body : method A) : method A :=
  fun '(m, w) =>
    let entered :=
      (set_memory_manager (mm_enter label (memory_manager m)) m,
       log (ProfileEnter label) w) in
    let '((m', w'), r) := body entered in
    ((set_memory_manager (mm_exit label (memory_manager m')) m',
      log (ProfileExit label) w'), r).

(** ** fit, transform, fit_transform (lines 49-62) *)

Definition fit (X : Frame) (y : Series) : method unit :=
  (X_prep <- handler_fit_transform X ;;
   profile "fit" (encoder_fit X_prep y))%py.

Definition transform (X : Frame) : method Frame :=
  (X_prep <- handler_transform X ;;
   profile "transform" (encoder_transform X_prep))%py.

Definition fit_transform (X : Frame) (y : Series) : method Frame :=
  (fit X y ;;; transform X)%py.

(** ** Serialization (lines 65-82) *)

Definition VERSION_HEADER : Z := 1.

(** The dictionary built at lines 66-70. *)
Definition payload_of (m : manager) : gmap string pyval :=
  <["version" := PInt VERSION_HEADER]>
    (<["encoder" := encoder m]>
       (<["missing_handler" := missing_handler m]> ∅)).

(** [joblib.dump(payload, path)] and [joblib.load(path)]: the codec of the
    joblib library.  A dump may raise (a path that cannot be written, an
    object that cannot be pickled): [dump_fails] gives, for a payload, a
    path and the files there are, the exception and the files the failed
    dump leaves, and is a parameter.  A dump that returns has written the
    file, and loading that path gives back a copy of the payload.  A file
    is known by the path it was written under: two spellings of one file
    are not identified, and no law below relies on two paths naming two
    files. *)
Class Codec := {
  dump_fails :
    gmap string pyval -> string -> gmap string (gmap string pyval) ->
    option (exn * gmap string (gmap string pyval));
}.
Context `{Codec}.

Definition joblib_dump (payload : gmap string pyval) (path : string) : M world unit :=
  fun w =>
    match dump_fails payload path (disk w) with
    | Some (e, files) => (World (registry w) files (trace w), inl e)
    | None =>
        (World (registry w) (<[path := payload]> (disk w)) (trace w), inr tt)
    end.

Definition joblib_load (path : string) : M world (gmap string pyval) :=
  fun w => match disk w !! path with
           | Some payload => (w, inr payload)
           | None => (w, inl (file_not_found path))
           end.

Definition save (path : string) : method unit :=
  fun '(m, w) =>
    let '(w', r) := joblib_dump (payload_of m) path w in ((m, w'), r).

(** [payload.get("version", 0)], line 76. *)
Definition payload_version (payload : gmap string pyval) : pyval :=
  default (PInt 0) (payload !! "version").

(** [payload["encoder"]], line 77. *)
Definition payload_encoder (payload : gmap string pyval) : M world pyval :=
  match payload !! "encoder" with
  | Some enc => ret enc
  | None => raise (key_error "encoder")
  end.

(** [payload.get("missing_handler", MissingHandler())], line 78: the default
    is an argument of [get], so the handler is constructed whether or not
    the key is present. *)
Definition payload_missing_handler (payload : gmap string pyval) : M world pyval :=
  (fresh <- new_handler None ;;
   ret (default fresh (payload !! "missing_handler")))%py.

(** Lines 76-82, on a decoded payload. *)
Definition load_payload (payload : gmap string pyval) : M world manager :=
  let _version := payload_version payload in
  (enc <- payload_encoder payload ;;
   mh <- payload_missing_handler payload ;;
   m <- init (str_lower (type_name enc)) None nan no_kwargs ;;
   ret (set_missing_handler mh (set_encoder enc m)))%py.

Definition load (path : string) : M world manager :=
  (payload <- joblib_load path ;; load_payload payload)%py.

(** [m.method(...)] in a script that holds the manager [m]: the script
    goes on with the manager as the call left it. *)
Definition call {A} (meth : method A) (m : manager) : M world (manager * A) :=
  fun w =>
    let '((m', w'), r) := meth (m, w) in
    (w', match r with inl e => inl e | inr a => inr (m', a) end).

(** ** The registry the class starts with (lines 24-29) *)

(** The four classes imported from [.encoders] at line 13.  The module is
    not part of this file; what the manager reads of a class beyond the
    protocol is its [__name__], taken to be the name it is imported by. *)
Class Builtins := {
  WOEGuard : encoder_cls;
  TargetEncoder : encoder_cls;
  LeaveOneOutEncoder : encoder_cls;
  OneHotEncoder : encoder_cls;
  WOEGuard_name : cls_name WOEGuard = "WOEGuard";
  TargetEncoder_name : cls_name TargetEncoder = "TargetEncoder";
  LeaveOneOutEncoder_name : cls_name LeaveOneOutEncoder = "LeaveOneOutEncoder";
  OneHotEncoder_name : cls_name OneHotEncoder = "OneHotEncoder";
}.

Definition registry0 `{Builtins} : gmap string encoder_cls :=
  <["woe" := WOEGuard]>
    (<["target" := TargetEncoder]>
       (<["leave_one_out" := LeaveOneOutEncoder]>
          (<["onehot" := OneHotEncoder]> ∅))).

(** The process at start-up: the built-in registry, nothing written, no
    call made. *)
Definition world0 `{Builtins} : world := World registry0 ∅ [].

(** ** What the strategy is shown *)

(** The frame an event hands to the encoder strategy, if it is a call on
    the strategy. *)
Definition observed (e : event) : option Frame :=
  match e with
  | EncoderFit X _ => Some X
  | EncoderTransform X => Some X
  | _ => None
  end.

Definition strategy_inputs (evs : list event) : list Frame := omap observed evs.

(** The process with another registry. *)
Definition with_registry (r : gmap string encoder_cls) (w : world) : world :=
  World r (disk w) (trace w).

(** The outcome of a method, read in the process with registry [r]. *)
Definition lift_registry {A} (r : gmap string encoder_cls)
    (out : (manager * world) * (exn + A)) : (manager * world) * (exn + A) :=
  let '((m, w), res) := out in ((m, with_registry r w), res).

(** The profiler line 42 keeps, and the constructor call it makes. *)
Definition chosen_profiler (injected : option MMState) : MMState :=
  match injected with
  | Some p => if mm_truthy p then p else mm_new
  | None => mm_new
  end.

Definition profiler_events (injected : option MMState) : list event :=
  match injected with
  | Some p => if mm_truthy p then [] else [NewProfiler]
  | None => [NewProfiler]
  end.

(** The calls a successful construction makes, in order. *)
Definition init_events (c : encoder_cls) (injected : option MMState)
    (missing_sentinel : Sentinel) (kw : Kwargs) : list event :=
  NewEncoder c kw :: profiler_events injected ++ [NewHandler (Some missing_sentinel)].

(** The process after more calls were observed. *)
Definition logged (evs : list event) (w : world) : world :=
  World (registry w) (disk w) (trace w ++ evs).

(** The calls observed between the process [w] and a later one [w']. *)
Definition new_events (w w' : world) : list event :=
  drop (length (trace w)) (trace w').

(** The class a run of registrations, oldest first, leaves under [name],
    if the run names it at all. *)
Fixpoint last_registered (name : string) (rs : list (string * encoder_cls))
    : option encoder_cls :=
  match rs with
  | [] => None
  | (n, c) :: rs' =>
      match last_registered name rs' with
      | Some c' => Some c'
      | None => if decide (n = name) then Some c else None
      end
  end.

(** A run of registrations, oldest first. *)
Fixpoint register_all (rs : list (string * encoder_cls)) (w : world) : world :=
  match rs with
  | [] => w
  | (name, c) :: rs' => register_all rs' (fst (register name c w))
  end.

(** ** Shapes of managers and of traces *)

(** The shape a construction gives a manager: the strategy is an instance
    of the class the manager resolved, and the handler is a
    [MissingHandler]. *)
Definition coherent (m : manager) : Prop :=
  (exists st, encoder m = PEncoder (encoder_cls_of m) st) /\
  (exists h, missing_handler m = PHandler h).

(** A reading of a trace against the profiler scopes in [open], innermost
    first: the handler is called outside every scope, the strategy's [fit]
    inside the one scope "fit" and its [transform] inside the one scope
    "transform", an exit closes the scope entered last, and no scope is
    left open at the end. *)
Fixpoint scoped (open : list string) (evs : list event) : bool :=
  match evs with
  | [] => match open with [] => true | _ :: _ => false end
  | e :: evs' =>
      match e with
      | ProfileEnter label => scoped (label :: open) evs'
      | ProfileExit label =>
          match open with
          | entered :: open' => String.eqb label entered && scoped open' evs'
          | [] => false
          end
      | HandlerFitTransform _ | HandlerTransform _ =>
          match open with [] => scoped open evs' | _ :: _ => false end
      | EncoderFit _ _ =>
          match open with
          | [label] => String.eqb label "fit" && scoped open evs'
          | _ => false
          end
      | EncoderTransform _ =>
          match open with
          | [label] => String.eqb label "transform" && scoped open evs'
          | _ => false
          end
      | NewEncoder _ _ | NewHandler _ | NewProfiler => scoped open evs'
      end
  end.

End Manager.

(** ** Test doubles

    Small collaborators on which the manager can be run: a frame of cells,
    a handler that replaces the cells equal to its sentinel, and encoder
    classes that learn the categories of the frame they are fitted on. *)
Module Doubles.

Inductive cell := CStr (s : string) | CNum (z : Z) | CNaN.

Definition cell_eqb (a b : cell) : bool :=
  match a, b with
  | CStr s, CStr t => String.eqb s t
  | CNum x, CNum y => Z.eqb x y
  | CNaN, CNaN => true
  | _, _ => false
  end.

Fixpoint mem (c : cell) (l : list cell) : bool :=
  match l with
  | [] => false
  | d :: l' => cell_eqb c d || mem c l'
  end.

Fixpoint distinct (l : list cell) : list cell :=
  match l with
  | [] => []
  | c :: l' => if mem c l' then distinct l' else c :: distinct l'
  end.

(** The value the handler writes in place of its sentinel. *)
Definition fill : cell := CStr "missing".

Definition prepare (sentinel : cell) (X : list (list cell)) : list (list cell) :=
  map (map (fun c => if cell_eqb c sentinel then fill else c)) X.

(** The handler: its sentinel and whether it was fitted.  It refuses a
    frame with no rows. *)
Definition stub_fit_transform (h : cell * bool) (X : list (list cell))
    : (cell * bool) * (exn + list (list cell)) :=
  match X with
  | [] => (h, inl (Exn "ValueError" "empty frame"))
  | _ => ((fst h, true), inr (prepare (fst h) X))
  end.

Definition stub_transform (h : cell * bool) (X : list (list cell))
    : (cell * bool) * (exn + list (list cell)) :=
  if snd h then (h, inr (prepare (fst h) X))
  else (h, inl (Exn "NotFittedError" "MissingHandler")).

Definition collab : Collaborators := {|
  Frame := list (list cell);
  Series := list Z;
  Sentinel := cell;
  Kwargs := list (string * Z);
  EncState := option (list cell);
  MHState := cell * bool;
  MMState := list string;
  nan := CNaN;
  no_kwargs := [];
  mh_new := fun s => (default CNaN s, false);
  mh_fit_transform := stub_fit_transform;
  mh_transform := stub_transform;
  mh_fit := None;
  mm_new := [];
  mm_truthy := fun _ => true;
  mm_enter := fun label open => label :: open;
  mm_exit := fun _ open => tail open;
|}.

#[local] Existing Instance collab.

(** [str.lower] for the doubles, whose class names are written in
    Latin-1: besides A-Z, the letters from U+00C0 to U+00DE but the sign
    U+00D7, which UTF-8 writes as the byte 195 and a byte from 128 to 158
    (not 151), go to the letter 32 places on. *)
Definition latin_lower (c : ascii) : ascii :=
  let n := nat_of_ascii c in
  if (128 <=? n)%nat && (n <=? 158)%nat && negb (n =? 151)%nat
  then ascii_of_nat (n + 32) else lower_ascii c.

Fixpoint lower_from (after_195 : bool) (s : string) : string :=
  match s with
  | EmptyString => EmptyString
  | String c s' =>
      String (if after_195 then latin_lower c else lower_ascii c)
        (lower_from (nat_of_ascii c =? 195)%nat s')
  end.

Definition pystr : PyStr.
Proof.
  refine {| str_lower := lower_from false;
            str_lower_ascii := _; str_lower_lowered := _ |}.
  - generalize false. intros b s. revert b.
    induction s as [|a s IH]; intros b Hascii; [reflexivity|].
    cbn [is_ascii lower_from lower] in *.
    apply andb_prop in Hascii as [Ha Hs]. rewrite (IH _ Hs). f_equal.
    destruct b; [|reflexivity].
    by destruct a as [[] [] [] [] [] [] [] []].
  - generalize false. intros b s. revert b.
    induction s as [|a s IH]; intros b; [reflexivity|].
    cbn [lower_from lower]. rewrite IH. f_equal.
    by destruct b, a as [[] [] [] [] [] [] [] []].
Defined.

#[local] Existing Instance pystr.

(** A codec that writes every path but the empty one, which names no
    file. *)
Definition codec : Codec :=
  {| dump_fails := fun _ path files =>
       match path with
       | EmptyString => Some (Exn "FileNotFoundError" EmptyString, files)
       | String _ _ => None
       end |}.

#[local] Existing Instance codec.

(** A constructor that accepts no keyword. *)
Definition strict_new (kw : list (string * Z)) : exn + option (list cell) :=
  match kw with
  | [] => inr None
  | (k, _) :: _ =>
      inl (Exn "TypeError" ("unexpected keyword argument '" +:+ k +:+ "'"))
  end.

(** Fitting learns the distinct cells; rows and labels must agree in
    number. *)
Definition onehot_fit (st : option (list cell)) (X : list (list cell)) (y : list Z)
    : option (list cell) * (exn + unit) :=
  if Nat.eqb (length X) (length y) then (Some (distinct (concat X)), inr tt)
  else (st, inl (Exn "ValueError" "X and y differ in length")).

Definition indicator (cats : list cell) (c : cell) : list cell :=
  map (fun k => CNum (if cell_eqb k c then 1 else 0)) cats.

Definition onehot_transform (st : option (list cell)) (X : list (list cell))
    : option (list cell) * (exn + list (list cell)) :=
  match st with
  | Some cats => (st, inr (map (fun row => flat_map (indicator cats) row) X))
  | None => (st, inl (Exn "NotFittedError" "encoder"))
  end.

(** A one-hot double under a chosen class name. *)
Definition double (name : string) : encoder_cls :=
  {| cls_name := name; cls_new := strict_new;
     cls_fit := onehot_fit; cls_transform := onehot_transform;
     cls_fit_transform := None |}.

(** A class whose constructor always raises. *)
Definition Broken : encoder_cls :=
  {| cls_name := "Broken";
     cls_new := fun _ => inl (Exn "RuntimeError" "cannot construct");
     cls_fit := onehot_fit; cls_transform := onehot_transform;
     cls_fit_transform := None |}.

Definition builtins : Builtins := {|
  WOEGuard := double "WOEGuard";
  TargetEncoder := double "TargetEncoder";
  LeaveOneOutEncoder := double "LeaveOneOutEncoder";
  OneHotEncoder := double "OneHotEncoder";
  WOEGuard_name := eq_refl;
  TargetEncoder_name := eq_refl;
  LeaveOneOutEncoder_name := eq_refl;
  OneHotEncoder_name := eq_refl;
|}.

#[local] Existing Instance builtins.

(** The frame of the concrete scenario: one column holding a, b and a
    missing value; and its labels. *)
Definition X_abn : list (list cell) := [[CStr "a"]; [CStr "b"]; [CNaN]].
Definition y_abn : list Z := [1; 0; 1]%Z.

(** The manager a default construction builds in the start-up process,
    and the same manager once fitted on the scenario. *)
Definition m_fresh : manager :=
  Manager (double "OneHotEncoder") (PEncoder (double "OneHotEncoder") None) []
    (PHandler (CNaN, false)).

Definition m_fitted : manager :=
  Manager (double "OneHotEncoder")
    (PEncoder (double "OneHotEncoder") (Some [CStr "a"; CStr "b"; fill])) []
    (PHandler (CNaN, true)).

(** A frame shows the raw sentinel when one of its cells is the NaN
    sentinel. *)
Definition shows_nan (X : list (list cell)) : Prop :=
  existsb (existsb (cell_eqb CNaN)) X = true.

(** A script: construct with the defaults, fit and transform the scenario,
    and save. *)
Definition fit_and_save (path : string) : M world (manager * list (list cell)) :=
  (m <- init_default ;;
   fitted <- call (fit X_abn y_abn) m ;;
   out <- call (transform X_abn) (fst fitted) ;;
   saved <- call (save path) (fst out) ;;
   ret (fst saved, snd out))%py.

(** Processes with one more registration: a class that lower-cases to its
    key, and the class that cannot be constructed under a new key and
    under the default key. *)
Definition w_onehot : world := fst (register "onehot" (double "OneHot") world0).
Definition w_broken : world := fst (register "broken" Broken world0).
Definition w_onehot_broken : world := fst (register "onehot" Broken world0).

(** Payloads: a fitted strategy and nothing else, and a version and
    nothing else. *)
Definition fitted_onehot : pyval :=
  PEncoder (double "OneHot") (Some [CStr "a"; CStr "b"; fill]).
Definition payload_encoder_only : gmap string pyval :=
  {["encoder" := fitted_onehot]}.
Definition payload_version_only : gmap string pyval :=
  {["version" := PInt 1]}.
Definition payload_builtin : gmap string pyval :=
  {["encoder" := PEncoder (double "OneHotEncoder") None]}.

(** A fitted manager of the class that lower-cases to its key. *)
Definition m_named : manager :=
  Manager (double "OneHot") fitted_onehot [] (PHandler (CNaN, true)).

(** Payloads: a strategy of the class that cannot be constructed, and a
    fitted strategy beside an integer where the handler should be. *)
Definition payload_broken : gmap string pyval :=
  {["encoder" := PEncoder Broken None]}.
Definition payload_int_handler : gmap string pyval :=
  <["missing_handler" := PInt 0]> payload_encoder_only.

(** A class whose name has a cased letter outside ASCII, a payload that
    holds a strategy of it, and the processes that register it under its
    name as written and under its name in lower case. *)
Definition latin_cls : encoder_cls := double "Éncoder".
Definition payload_latin : gmap string pyval :=
  {["encoder" := PEncoder latin_cls None]}.
Definition w_latin_as_written : world := fst (register "Éncoder" latin_cls world0).
Definition w_latin_lowered : world := fst (register "éncoder" latin_cls world0).

(** Processes that hold one file. *)
Definition w_onehot_file : world :=
  World (registry w_onehot) {["encoder.joblib" := payload_encoder_only]} [].
Definition w_broken_file : world :=
  World (registry w_broken) {["encoder.joblib" := payload_broken]} [].

(** An unfitted manager of the built-in scheme "woe". *)
Definition m_woe : manager :=
  Manager (double "WOEGuard") (PEncoder (double "WOEGuard") None) []
    (PHandler (CNaN, false)).

(** The frame the one-hot double returns for the scenario. *)
Definition out_abn : list (list cell) :=
  [[CNum 1; CNum 0; CNum 0]; [CNum 0; CNum 1; CNum 0]; [CNum 0; CNum 0; CNum 1]].

End Doubles.

(** * Laws of the manager *)

Section Laws.
Context `{Collaborators}.
Context `{!PyStr}.
Context `{!Codec}.

Implicit Types (w : world) (m : manager) (c : encoder_cls) (X : Frame) (y : Series).

Ltac run :=
  unfold fit_transform, fit, transform, save, profile, handler_fit_transform,
    handler_transform, encoder_fit, encoder_transform, joblib_dump,
    lift_registry, with_registry, log, bind, ret, raise; simpl.

(** ** The three outcomes of a construction *)

Lemma init_unregistered encoding injected s kw w :
  registry w !! encoding = None ->
  init encoding injected s kw w = (w, inl (not_registered encoding)).
Proof.
  intros Hnone. unfold init, bind, resolve. by rewrite Hnone.
Qed.

Lemma init_constructor_raises encoding injected s kw w c e :
  registry w !! encoding = Some c ->
  cls_new c kw = inl e ->
  init encoding injected s kw w = (logged [NewEncoder c kw] w, inl e).
Proof.
  intros Hc He. unfold init, bind, resolve, new_encoder. by rewrite Hc, He.
Qed.

Lemma init_registered encoding injected s kw w c st :
  registry w !! encoding = Some c ->
  cls_new c kw = inr st ->
  init encoding injected s kw w =
    (logged (init_events c injected s kw) w,
     inr (Manager c (PEncoder c st) (chosen_profiler injected)
            (PHandler (mh_new (Some s))))).
Proof.
  intros Hc Hst.
  unfold init, bind, resolve, new_encoder, or_new_profiler, new_handler, ret.
  rewrite Hc, Hst.
  unfold init_events, profiler_events, chosen_profiler, logged, log.
  destruct injected as [p|]; [destruct (mm_truthy p)|]; simpl;
    by rewrite <- ?app_assoc.
Qed.

(** ** The trace *)

Lemma log_is_logged e w : log e w = logged [e] w.
Proof. reflexivity. Qed.

Lemma new_events_logged evs w : new_events w (logged evs w) = evs.
Proof. unfold new_events, logged; simpl. by rewrite drop_app_length. Qed.

(** ** fit and transform on a manager whose attributes have their types *)

Lemma fit_eq m w X y h c st :
  missing_handler m = PHandler h ->
  encoder m = PEncoder c st ->
  fit X y (m, w) =
    match mh_fit_transform h X with
    | (h', inl e) =>
        ((set_missing_handler (PHandler h') m,
          logged [HandlerFitTransform X] w), inl e)
    | (h', inr X') =>
        let '(st', r) := cls_fit c st X' y in
        ((Manager (encoder_cls_of m) (PEncoder c st')
            (mm_exit "fit" (mm_enter "fit" (memory_manager m))) (PHandler h'),
          logged [HandlerFitTransform X; ProfileEnter "fit";
                  EncoderFit X' y; ProfileExit "fit"] w), r)
    end.
Proof.
  intros Hh Henc. destruct m as [ec enc p mh]; simpl in *; subst.
  run. destruct (mh_fit_transform h X) as [h' [e|X']]; simpl; [done|].
  destruct (cls_fit c st X' y) as [st' r]; simpl.
  unfold logged; simpl. by rewrite <- !app_assoc.
Qed.

Lemma transform_eq m w X h c st :
  missing_handler m = PHandler h ->
  encoder m = PEncoder c st ->
  transform X (m, w) =
    match mh_transform h X with
    | (h', inl e) =>
        ((set_missing_handler (PHandler h') m,
          logged [HandlerTransform X] w), inl e)
    | (h', inr X') =>
        let '(st', r) := cls_transform c st X' in
        ((Manager (encoder_cls_of m) (PEncoder c st')
            (mm_exit "transform" (mm_enter "transform" (memory_manager m)))
            (PHandler h'),
          logged [HandlerTransform X; ProfileEnter "transform";
                  EncoderTransform X'; ProfileExit "transform"] w), r)
    end.
Proof.
  intros Hh Henc. destruct m as [ec enc p mh]; simpl in *; subst.
  run. destruct (mh_transform h X) as [h' [e|X']]; simpl; [done|].
  destruct (cls_transform c st X') as [st' r]; simpl.
  unfold logged; simpl. by rewrite <- !app_assoc.
Qed.

(** ** fit and transform on any manager *)

(** An object that has [fit_transform] still has [transform] after that
    call: the call changes the state of the object, not its class. *)
Lemma fit_transform_keeps_transform v f X v' r :
  getattr_fit_transform v = Some f ->
  f X = (v', r) ->
  is_Some (getattr_transform v').
Proof.
  destruct v as [z|s|c st|h]; simpl; try done.
  - destruct (cls_fit_transform c) as [g|]; simpl; [|done].
    intros [= <-]. unfold bound. intros [= <- _]. by eexists.
  - intros [= <-]. unfold bound. intros [= <- _]. by eexists.
Qed.

(** The calls [fit] makes, whatever the attributes hold. *)
Lemma fit_events m w X y :
  exists evs,
    snd (fst (fit X y (m, w))) = logged evs w /\
    forall X', X' ∈ strategy_inputs evs ->
      exists f v', getattr_fit_transform (missing_handler m) = Some f /\
                   f X = (v', inr X').
Proof.
  destruct m as [ec enc p mh]. run.
  destruct (getattr_fit_transform mh) as [f|] eqn:Hf; simpl.
  2: { exists []. split; [by destruct w; unfold logged; simpl; rewrite app_nil_r|].
       intros X' HX'. by apply elem_of_nil in HX'. }
  destruct (f X) as [v' [e|X1]] eqn:HfX; simpl.
  - exists [HandlerFitTransform X]. split; [done|].
    intros X' HX'. by apply elem_of_nil in HX'.
  - destruct (getattr_fit enc) as [g|]; simpl.
    + destruct (g X1 y) as [enc' r]; simpl.
      exists [HandlerFitTransform X; ProfileEnter "fit"; EncoderFit X1 y;
              ProfileExit "fit"].
      split; [unfold logged; simpl; by rewrite <- !app_assoc|].
      intros X' HX'. apply list_elem_of_singleton in HX' as ->. eauto.
    + exists [HandlerFitTransform X; ProfileEnter "fit"; ProfileExit "fit"].
      split; [unfold logged; simpl; by rewrite <- !app_assoc|].
      intros X' HX'. by apply elem_of_nil in HX'.
Qed.

Lemma transform_events m w X :
  exists evs,
    snd (fst (transform X (m, w))) = logged evs w /\
    forall X', X' ∈ strategy_inputs evs ->
      exists f v', getattr_transform (missing_handler m) = Some f /\
                   f X = (v', inr X').
Proof.
  destruct m as [ec enc p mh]. run.
  destruct (getattr_transform mh) as [f|] eqn:Hf; simpl.
  2: { exists []. split; [by destruct w; unfold logged; simpl; rewrite app_nil_r|].
       intros X' HX'. by apply elem_of_nil in HX'. }
  destruct (f X) as [v' [e|X1]] eqn:HfX; simpl.
  - exists [HandlerTransform X]. split; [done|].
    intros X' HX'. by apply elem_of_nil in HX'.
  - destruct (getattr_transform enc) as [g|]; simpl.
    + destruct (g X1) as [enc' r]; simpl.
      exists [HandlerTransform X; ProfileEnter "transform"; EncoderTransform X1;
              ProfileExit "transform"].
      split; [unfold logged; simpl; by rewrite <- !app_assoc|].
      intros X' HX'. apply list_elem_of_singleton in HX' as ->. eauto.
    + exists [HandlerTransform X; ProfileEnter "transform";
              ProfileExit "transform"].
      split; [unfold logged; simpl; by rewrite <- !app_assoc|].
      intros X' HX'. by apply elem_of_nil in HX'.
Qed.

(** [transform] starts with the call on the handler, when the handler has
    the method. *)
Lemma transform_starts_with_handler m w X :
  is_Some (getattr_transform (missing_handler m)) ->
  exists evs, snd (fst (transform X (m, w))) = logged (HandlerTransform X :: evs) w.
Proof.
  destruct m as [ec enc p mh]. intros [f Hf]. run. simpl in Hf. rewrite Hf.
  destruct (f X) as [v' [e|X1]]; simpl; [by exists []|].
  destruct (getattr_transform enc) as [g|]; simpl.
  - destruct (g X1) as [enc' r]; simpl.
    exists [ProfileEnter "transform"; EncoderTransform X1; ProfileExit "transform"].
    unfold logged; simpl. by rewrite <- !app_assoc.
  - exists [ProfileEnter "transform"; ProfileExit "transform"].
    unfold logged; simpl. by rewrite <- !app_assoc.
Qed.

(** What [transform] returns depends on the strategy and the handler
    alone: not on the profiler, the registry, the files or the trace. *)
Lemma transform_result m1 w1 m2 w2 X :
  encoder m1 = encoder m2 ->
  missing_handler m1 = missing_handler m2 ->
  snd (transform X (m1, w1)) = snd (transform X (m2, w2)).
Proof.
  destruct m1 as [ec1 enc1 p1 mh1], m2 as [ec2 enc2 p2 mh2]; simpl.
  intros -> ->. run.
  destruct (getattr_transform mh2) as [f|]; simpl; [|done].
  destruct (f X) as [v' [e|X']]; simpl; [done|].
  destruct (getattr_transform enc2) as [g|]; simpl; [|done].
  by destruct (g X') as [enc' r].
Qed.

(** No method of a constructed manager reads the registry. *)
Lemma fit_ignores_registry r m w X y :
  fit X y (m, with_registry r w) = lift_registry r (fit X y (m, w)).
Proof.
  destruct m as [ec enc p mh]. run.
  destruct (getattr_fit_transform mh) as [f|]; simpl; [|done].
  destruct (f X) as [v' [e|X']]; simpl; [done|].
  destruct (getattr_fit enc) as [g|]; simpl; [|done].
  by destruct (g X' y) as [enc' res].
Qed.

Lemma transform_ignores_registry r m w X :
  transform X (m, with_registry r w) = lift_registry r (transform X (m, w)).
Proof.
  destruct m as [ec enc p mh]. run.
  destruct (getattr_transform mh) as [f|]; simpl; [|done].
  destruct (f X) as [v' [e|X']]; simpl; [done|].
  destruct (getattr_transform enc) as [g|]; simpl; [|done].
  by destruct (g X') as [enc' res].
Qed.

Lemma fit_transform_ignores_registry r m w X y :
  fit_transform X y (m, with_registry r w) =
  lift_registry r (fit_transform X y (m, w)).
Proof.
  unfold fit_transform, bind. rewrite fit_ignores_registry.
  destruct (fit X y (m, w)) as [[m1 w1] [e|[]]]; simpl; [done|].
  apply transform_ignores_registry.
Qed.

Lemma save_ignores_registry r m w path :
  save path (m, with_registry r w) = lift_registry r (save path (m, w)).
Proof.
  unfold save, joblib_dump, lift_registry, with_registry; simpl.
  by destruct (dump_fails (payload_of m) path (disk w)) as [[e files]|].
Qed.

(** ** Registration *)

Lemma register_all_lookup rs w name :
  registry (register_all rs w) !! name =
    match last_registered name rs with
    | Some c => Some c
    | None => registry w !! name
    end.
Proof.
  revert w. induction rs as [|[n d] rs IH]; intros w; [done|].
  cbn [register_all last_registered]. rewrite IH.
  destruct (last_registered name rs) as [c'|]; [done|]. simpl.
  destruct (decide (n = name)) as [->|Hne].
  - apply lookup_insert_eq.
  - by apply lookup_insert_ne.
Qed.

(** ** Loading *)

Lemma load_payload_no_encoder payload w :
  payload !! "encoder" = None ->
  load_payload payload w = (w, inl (key_error "encoder")).
Proof.
  intros Hnone. unfold load_payload, payload_encoder, bind. by rewrite Hnone.
Qed.

Lemma load_payload_eq payload enc w :
  payload !! "encoder" = Some enc ->
  load_payload payload w =
    match init (str_lower (type_name enc)) None nan no_kwargs
            (logged [NewHandler None] w) with
    | (w', inl e) => (w', inl e)
    | (w', inr m0) =>
        (w', inr (Manager (encoder_cls_of m0) enc (memory_manager m0)
                    (default (PHandler (mh_new None))
                       (payload !! "missing_handler"))))
    end.
Proof.
  intros Henc.
  unfold load_payload, payload_encoder, payload_missing_handler, new_handler.
  rewrite Henc. unfold bind at 1. unfold ret at 1. unfold bind at 1.
  unfold bind at 1. unfold ret at 1. rewrite log_is_logged.
  unfold bind, ret.
  by destruct (init _ _ _ _ _) as [w' [e|m0]].
Qed.

(** [load] reads two keys of the payload and nothing else. *)
Lemma load_payload_ext p1 p2 w :
  p1 !! "encoder" = p2 !! "encoder" ->
  default (PHandler (mh_new None)) (p1 !! "missing_handler") =
  default (PHandler (mh_new None)) (p2 !! "missing_handler") ->
  load_payload p1 w = load_payload p2 w.
Proof.
  intros Henc Hmh. destruct (p2 !! "encoder") as [enc|] eqn:H2.
  - rewrite (load_payload_eq p1 enc), (load_payload_eq p2 enc) by done.
    by rewrite Hmh.
  - by rewrite !load_payload_no_encoder.
Qed.

(** ** Construction and registration *)

(** C5.  Constructing with a name that is not a key of the
    registry fails with the [ValueError] of line 39 and calls no
    constructor at all: the process, its trace included, is as before.
    With a name that is a key, the registered class is called with the
    forwarded keywords; if that call returns, the construction succeeds,
    the strategy is the instance of the registered class it returned, one
    handler is made with the sentinel and the profiler is kept or made; if
    that call raises, its exception comes out of the construction and
    neither a profiler nor a handler is made. *)
Theorem C5_construction encoding injected s kw w :
  match registry w !! encoding with
  | None => init encoding injected s kw w = (w, inl (not_registered encoding))
  | Some c =>
      match cls_new c kw with
      | inr st =>
          init encoding injected s kw w =
            (logged (init_events c injected s kw) w,
             inr (Manager c (PEncoder c st) (chosen_profiler injected)
                    (PHandler (mh_new (Some s)))))
      | inl e =>
          init encoding injected s kw w = (logged [NewEncoder c kw] w, inl e)
      end
  end.
Proof.
  destruct (registry w !! encoding) as [c|] eqn:Hreg.
  - destruct (cls_new c kw) as [e|st] eqn:Hnew.
    + by apply init_constructor_raises.
    + by apply init_registered.
  - by apply init_unregistered.
Qed.

(** C10.  A call that gives no [encoding] looks up "onehot":
    without that key it fails naming "onehot"; with it, the class
    registered under "onehot" is called with the forwarded keywords and,
    if that call returns, the manager's strategy is the instance it
    returned; if it raises, its exception comes out. *)
Theorem C10_default_scheme_is_onehot injected s kw w :
  init_default w = init_default_encoding None nan no_kwargs w /\
  match registry w !! "onehot" with
  | None =>
      init_default_encoding injected s kw w = (w, inl (not_registered "onehot"))
  | Some c =>
      match cls_new c kw with
      | inr st =>
          init_default_encoding injected s kw w =
            (logged (init_events c injected s kw) w,
             inr (Manager c (PEncoder c st) (chosen_profiler injected)
                    (PHandler (mh_new (Some s)))))
      | inl e =>
          init_default_encoding injected s kw w =
            (logged [NewEncoder c kw] w, inl e)
      end
  end.
Proof.
  split; [done|]. unfold init_default_encoding.
  destruct (registry w !! "onehot") as [c|] eqn:Hreg.
  - destruct (cls_new c kw) as [e|st] eqn:Hnew.
    + by apply init_constructor_raises.
    + by apply init_registered.
  - by apply init_unregistered.
Qed.

(** C8.  [register name c] changes the registry at [name] and nothing
    else: the other names, the files and the trace stay.  From then on a
    construction resolves [name], to [c] or to the class a later
    registration put under it, whatever registrations follow.  A manager
    built before the registration is the manager it was, class and
    strategy included, and its [fit], [transform], [fit_transform] and
    [save] run after the registration as before it: the registry is read
    at construction only. *)
Theorem C8_registration_global_additive name c w later m X y path
    encoding injected s kw :
  let w' := fst (register name c w) in
  register name c w = (with_registry (<[name := c]> (registry w)) w, inr tt)
  /\ snd ((built <- init encoding injected s kw ;;
           register name c ;;; ret built)%py w) =
     snd (init encoding injected s kw w)
  /\ delete name (registry w') = delete name (registry w)
  /\ resolve name w' = (w', inr c)
  /\ resolve name (register_all later w') =
       (register_all later w', inr (default c (last_registered name later)))
  /\ fit X y (m, w') = lift_registry (registry w') (fit X y (m, w))
  /\ transform X (m, w') = lift_registry (registry w') (transform X (m, w))
  /\ fit_transform X y (m, w') =
       lift_registry (registry w') (fit_transform X y (m, w))
  /\ save path (m, w') = lift_registry (registry w') (save path (m, w)).
Proof.
  intros w'. subst w'. cbn [register fst].
  assert (Hhere : <[name := c]> (registry w) !! name = Some c)
    by apply lookup_insert_eq.
  split; [reflexivity|]. split.
  { unfold bind, ret. by destruct (init encoding injected s kw w) as [w1 [e|built]]. }
  repeat split.
  - simpl. apply delete_insert_eq.
  - unfold resolve. simpl. by rewrite Hhere.
  - unfold resolve. rewrite register_all_lookup. simpl. rewrite Hhere.
    by destruct (last_registered name later).
  - apply (fit_ignores_registry (<[name := c]> (registry w))).
  - apply (transform_ignores_registry (<[name := c]> (registry w))).
  - apply (fit_transform_ignores_registry (<[name := c]> (registry w))).
  - apply (save_ignores_registry (<[name := c]> (registry w))).
Qed.

(** ** What load does with a payload *)

(** C2.  [load] takes the lower-cased name of the class of the decoded
    strategy as the registry key of the construction it runs.  When that
    key is not in the registry the load fails, after the default handler
    of line 78 was made, with the very exception a construction by that
    name raises. *)
Theorem C2_load_infers_scheme_name payload enc w :
  payload !! "encoder" = Some enc ->
  registry w !! str_lower (type_name enc) = None ->
  load_payload payload w =
    (logged [NewHandler None] w, inl (not_registered (str_lower (type_name enc))))
  /\ forall injected s kw,
       snd (init (str_lower (type_name enc)) injected s kw w) =
       inl (not_registered (str_lower (type_name enc))).
Proof.
  intros Henc Hreg. split.
  - rewrite (load_payload_eq payload enc) by done.
    by rewrite init_unregistered.
  - intros injected s kw. by rewrite init_unregistered.
Qed.

(** C9.  A payload without the key "encoder" makes [load] raise
    [KeyError] for that key, before anything is constructed; the keys
    "version" and "missing_handler" are defaulted instead: a payload
    without them loads as the payload that holds version 0 and a default
    handler. *)
Theorem C9_encoder_key_is_mandatory payload path w :
  payload !! "encoder" = None ->
  load_payload payload w = (w, inl (key_error "encoder"))
  /\ (disk w !! path = Some payload ->
      load path w = (w, inl (key_error "encoder")))
  /\ forall full,
       load_payload (delete "version" (delete "missing_handler" full)) w =
       load_payload (<["version" := PInt 0]>
                       (<["missing_handler" := PHandler (mh_new None)]>
                          (delete "missing_handler" full))) w.
Proof.
  intros Hnone. split; [by apply load_payload_no_encoder|]. split.
  - intros Hdisk. unfold load, joblib_load, bind. rewrite Hdisk.
    by apply load_payload_no_encoder.
  - intros full. apply load_payload_ext.
    + rewrite lookup_delete_ne by done.
      by rewrite lookup_insert_ne, lookup_insert_ne.
    + rewrite lookup_delete_ne, lookup_delete_eq by done.
      by rewrite lookup_insert_ne, lookup_insert_eq.
Qed.

(** C6.  The version [load] reads from a payload without the key
    "version" is 0, and no value under that key changes what [load] does.
    [load] succeeds exactly when the construction by the inferred name
    does, and then the decoded strategy and the decoded handler, or the
    default handler made at line 78 when the payload has no
    "missing_handler", replace the two placeholders of that
    construction. *)
Theorem C6_load_defaults payload enc w :
  payload !! "encoder" = Some enc ->
  payload_version (delete "version" payload) = PInt 0
  /\ (forall v, load_payload (<["version" := v]> payload) w =
                load_payload payload w)
  /\ load_payload (delete "version" payload) w = load_payload payload w
  /\ load_payload payload w =
       match init (str_lower (type_name enc)) None nan no_kwargs
               (logged [NewHandler None] w) with
       | (w', inl e) => (w', inl e)
       | (w', inr m0) =>
           (w', inr (Manager (encoder_cls_of m0) enc (memory_manager m0)
                       (default (PHandler (mh_new None))
                          (payload !! "missing_handler"))))
       end
  /\ (payload !! "missing_handler" = None ->
      forall w' m, load_payload payload w = (w', inr m) ->
        encoder m = enc /\ missing_handler m = PHandler (mh_new None)).
Proof.
  intros Henc. split; [|split; [|split; [|split]]].
  - unfold payload_version. by rewrite lookup_delete_eq.
  - intros v. apply load_payload_ext; by rewrite lookup_insert_ne.
  - apply load_payload_ext; by rewrite lookup_delete_ne.
  - by apply load_payload_eq.
  - intros Hmh w' m. rewrite (load_payload_eq payload enc) by done.
    rewrite Hmh.
    destruct (init _ _ _ _ _) as [w1 [e|m0]]; [done|].
    intros [= _ <-]. done.
Qed.

(** ** The order of the calls in fit, transform and fit_transform *)

(** A [fit] that returns went through the handler and the strategy, and
    leaves a handler that has [transform]. *)
Lemma fit_returns m w X y m1 w1 u :
  fit X y (m, w) = ((m1, w1), inr u) ->
  is_Some (getattr_transform (missing_handler m1)) /\
  exists X',
    w1 = logged [HandlerFitTransform X; ProfileEnter "fit";
                 EncoderFit X' y; ProfileExit "fit"] w.
Proof.
  destruct m as [ec enc p mh]. run.
  destruct (getattr_fit_transform mh) as [f|] eqn:Hf; simpl; [|done].
  destruct (f X) as [v' [e|X']] eqn:HfX; simpl; [done|].
  destruct (getattr_fit enc) as [g|]; simpl; [|done].
  destruct (g X' y) as [enc' [e|[]]]; simpl; [done|].
  intros [= <- <-]. split.
  - simpl. by eapply fit_transform_keeps_transform.
  - exists X'. unfold logged; simpl. by rewrite <- !app_assoc.
Qed.

(** C3.  [fit_transform X y] is [fit X y] followed by [transform X] on the
    frame [X] it was given: when [fit] raises, so does it, in the state
    [fit] left; when [fit] returns, its state and result are those of
    [transform X] run next, and the handler prepared [X] twice, once in
    each. *)
Theorem C3_fit_transform_is_fit_then_transform m w X y :
  match fit X y (m, w) with
  | (s1, inl e) => fit_transform X y (m, w) = (s1, inl e)
  | ((m1, w1), inr _) =>
      fit_transform X y (m, w) = transform X (m1, w1) /\
      exists evs1 evs2,
        w1 = logged (HandlerFitTransform X :: evs1) w /\
        snd (fst (fit_transform X y (m, w))) =
          logged (HandlerTransform X :: evs2) w1
  end.
Proof.
  unfold fit_transform, bind.
  destruct (fit X y (m, w)) as [[m1 w1] [e|u]] eqn:Hfit; [done|].
  split; [done|].
  destruct (fit_returns _ _ _ _ _ _ _ Hfit) as (Hattr & X' & Hw1).
  destruct (transform_starts_with_handler m1 w1 X Hattr) as (evs2 & Hevs2).
  eexists _, evs2. split; [exact Hw1|exact Hevs2].
Qed.

(** C4.  The frames [fit] hands to the strategy are frames the
    [fit_transform] of the handler returned for [X], and the frames
    [transform] hands to it are frames the [transform] of the handler
    returned for [X]; each call only adds to the trace.  Hence, when no
    frame the handler returns for [X] is [raw] (shows the sentinel), the
    strategy is never shown a [raw] frame. *)
Theorem C4_strategy_sees_prepared_frames m w X y (raw : Frame -> Prop) :
  (forall f v' X',
     getattr_fit_transform (missing_handler m) = Some f \/
     getattr_transform (missing_handler m) = Some f ->
     f X = (v', inr X') -> ~ raw X') ->
  let w_fit := snd (fst (fit X y (m, w))) in
  let w_tr := snd (fst (transform X (m, w))) in
  trace w_fit = trace w ++ new_events w w_fit
  /\ trace w_tr = trace w ++ new_events w w_tr
  /\ (forall X', X' ∈ strategy_inputs (new_events w w_fit) ->
        exists f v', getattr_fit_transform (missing_handler m) = Some f /\
                     f X = (v', inr X'))
  /\ (forall X', X' ∈ strategy_inputs (new_events w w_tr) ->
        exists f v', getattr_transform (missing_handler m) = Some f /\
                     f X = (v', inr X'))
  /\ (forall X', X' ∈ strategy_inputs (new_events w w_fit ++ new_events w w_tr) ->
        ~ raw X').
Proof.
  intros Hclean w_fit w_tr. subst w_fit w_tr.
  destruct (fit_events m w X y) as (evf & -> & Hf).
  destruct (transform_events m w X) as (evt & -> & Ht).
  rewrite !new_events_logged.
  repeat split; try done.
  intros X' HX'. unfold strategy_inputs in HX'. rewrite omap_app in HX'.
  apply elem_of_app in HX' as [HX'|HX'].
  - destruct (Hf X' HX') as (f & v' & Hattr & Hres). eauto.
  - destruct (Ht X' HX') as (f & v' & Hattr & Hres). eauto.
Qed.

(** C7.  An exception of the handler or of the strategy comes out of
    [fit], [transform] and [fit_transform] as it was raised.  The failing
    step is the last one made: after the handler raises, neither the
    profiler nor the strategy is called, and after [fit] raises,
    [fit_transform] does not start [transform].  A call that raises
    returns no frame. *)
Theorem C7_collaborator_exceptions_propagate m w X y h c st e :
  missing_handler m = PHandler h ->
  encoder m = PEncoder c st ->
  (forall h', mh_fit_transform h X = (h', inl e) ->
     fit X y (m, w) =
       ((set_missing_handler (PHandler h') m,
         logged [HandlerFitTransform X] w), inl e))
  /\ (forall h' X' st', mh_fit_transform h X = (h', inr X') ->
        cls_fit c st X' y = (st', inl e) ->
        snd (fit X y (m, w)) = inl e)
  /\ (forall h', mh_transform h X = (h', inl e) ->
        transform X (m, w) =
          ((set_missing_handler (PHandler h') m,
            logged [HandlerTransform X] w), inl e))
  /\ (forall h' X' st', mh_transform h X = (h', inr X') ->
        cls_transform c st X' = (st', inl e) ->
        snd (transform X (m, w)) = inl e)
  /\ (forall s1, fit X y (m, w) = (s1, inl e) ->
        fit_transform X y (m, w) = (s1, inl e))
  /\ (forall s1 s2 u, fit X y (m, w) = (s1, inr u) ->
        transform X s1 = (s2, inl e) ->
        fit_transform X y (m, w) = (s2, inl e)).
Proof.
  intros Hmh Henc. repeat split.
  - intros h' Hft. rewrite (fit_eq m w X y h c st) by done. by rewrite Hft.
  - intros h' X' st' Hft Hfit.
    rewrite (fit_eq m w X y h c st) by done. by rewrite Hft, Hfit.
  - intros h' Ht. rewrite (transform_eq m w X h c st) by done. by rewrite Ht.
  - intros h' X' st' Ht Htr.
    rewrite (transform_eq m w X h c st) by done. by rewrite Ht, Htr.
  - intros s1 Hfit. unfold fit_transform, bind. by rewrite Hfit.
  - intros s1 s2 u Hfit Htr. unfold fit_transform, bind. by rewrite Hfit.
Qed.

(** ** Saving and loading again *)

(** The payload [save] writes holds the manager's strategy and handler. *)
Lemma payload_of_lookup m :
  payload_of m !! "encoder" = Some (encoder m) /\
  payload_of m !! "missing_handler" = Some (missing_handler m) /\
  payload_of m !! "version" = Some (PInt VERSION_HEADER).
Proof.
  unfold payload_of. by split; [|split].
Qed.

(** A [save] that returns has written the payload at its path and has
    changed nothing else. *)
Lemma save_returns m w path :
  snd (save path (m, w)) = inr tt ->
  fst (save path (m, w)) =
    (m, World (registry w) (<[path := payload_of m]> (disk w)) (trace w)).
Proof.
  unfold save, joblib_dump.
  by destruct (dump_fails (payload_of m) path (disk w)) as [[e files]|].
Qed.

Lemma load_after_save m w path :
  snd (save path (m, w)) = inr tt ->
  load path (snd (fst (save path (m, w)))) =
  load_payload (payload_of m) (snd (fst (save path (m, w)))).
Proof.
  intros Hsaved. rewrite (save_returns m w path Hsaved).
  unfold load, joblib_load, bind; simpl. by rewrite lookup_insert_eq.
Qed.

(** Where the inferred name is a key of the registry and the class under
    it constructs without keywords, the loaded manager holds the saved
    strategy and handler, and its [transform] returns what the saved
    manager's does. *)
Lemma round_trip_when_resolvable m w path X c st c' st0 :
  snd (save path (m, w)) = inr tt ->
  encoder m = PEncoder c st ->
  registry w !! str_lower (cls_name c) = Some c' ->
  cls_new c' no_kwargs = inr st0 ->
  exists w' m',
    load path (snd (fst (save path (m, w)))) = (w', inr m') /\
    encoder m' = encoder m /\
    missing_handler m' = missing_handler m /\
    forall w1 w2, snd (transform X (m', w1)) = snd (transform X (m, w2)).
Proof.
  intros Hsaved Henc Hreg Hnew. rewrite load_after_save by done.
  rewrite (save_returns m w path Hsaved). cbn [fst snd].
  destruct (payload_of_lookup m) as (Hpe & Hpm & _).
  rewrite (load_payload_eq _ (encoder m)) by done.
  rewrite Hpm, Henc. cbn [type_name].
  erewrite init_registered by (try exact Hnew; exact Hreg).
  eexists _, _. split; [done|]. cbn [encoder missing_handler default].
  repeat split; try done.
  intros w1 w2. apply transform_result; by rewrite ?Henc.
Qed.

(** Where the inferred name is not a key, the file just saved does not
    load. *)
Lemma round_trip_when_unresolvable m w path c st :
  snd (save path (m, w)) = inr tt ->
  encoder m = PEncoder c st ->
  registry w !! str_lower (cls_name c) = None ->
  snd (load path (snd (fst (save path (m, w))))) =
  inl (not_registered (str_lower (cls_name c))).
Proof.
  intros Hsaved Henc Hreg. rewrite load_after_save by done.
  rewrite (save_returns m w path Hsaved). cbn [fst snd].
  destruct (payload_of_lookup m) as (Hpe & _ & _).
  rewrite (load_payload_eq _ (encoder m)) by done.
  rewrite Henc. cbn [type_name]. by rewrite init_unregistered.
Qed.

Section BuiltinRegistry.
Context `{!Builtins}.

(** No built-in class lower-cases to the key it is registered under. *)
Lemma builtin_names_unregistered c :
  c ∈ [WOEGuard; TargetEncoder; LeaveOneOutEncoder; OneHotEncoder] ->
  registry0 !! lower (cls_name c) = None.
Proof.
  intros Hc. unfold registry0.
  repeat (apply elem_of_cons in Hc as [->|Hc]);
    [rewrite WOEGuard_name | rewrite TargetEncoder_name
    | rewrite LeaveOneOutEncoder_name | rewrite OneHotEncoder_name
    | by apply elem_of_nil in Hc];
    cbn [lower]; by rewrite !lookup_insert_ne, lookup_empty.
Qed.

(** The built-in class names are ASCII: [str.lower] is [lower] on them. *)
Lemma builtin_names_ascii c :
  c ∈ [WOEGuard; TargetEncoder; LeaveOneOutEncoder; OneHotEncoder] ->
  str_lower (cls_name c) = lower (cls_name c).
Proof.
  intros Hc. apply str_lower_ascii.
  repeat (apply elem_of_cons in Hc as [->|Hc]);
    [rewrite WOEGuard_name | rewrite TargetEncoder_name
    | rewrite LeaveOneOutEncoder_name | rewrite OneHotEncoder_name
    | by apply elem_of_nil in Hc]; reflexivity.
Qed.

(** Hence no manager of a built-in scheme loads again under the built-in
    registry. *)
Lemma builtin_round_trip_fails m w path c st :
  snd (save path (m, w)) = inr tt ->
  registry w = registry0 ->
  encoder m = PEncoder c st ->
  c ∈ [WOEGuard; TargetEncoder; LeaveOneOutEncoder; OneHotEncoder] ->
  snd (load path (snd (fst (save path (m, w))))) =
  inl (not_registered (lower (cls_name c))).
Proof.
  intros Hsaved Hreg Henc Hc. rewrite <- (builtin_names_ascii c Hc).
  apply (round_trip_when_unresolvable m w path c st Hsaved Henc).
  rewrite Hreg, (builtin_names_ascii c Hc). by apply builtin_names_unregistered.
Qed.

End BuiltinRegistry.

End Laws.

(** * The laws on the test doubles *)

Section Scenarios.
Import Doubles.
Existing Instance collab.
Existing Instance pystr.
Existing Instance codec.
Existing Instance builtins.

(** The scenario of the spec: the strategy is fitted on and shown the
    prepared frame, both times. *)
Example scenario_strategy_inputs :
  strategy_inputs (trace (snd (fst (fit_transform X_abn y_abn (m_fresh, world0))))) =
  [[[CStr "a"]; [CStr "b"]; [fill]]; [[CStr "a"]; [CStr "b"]; [fill]]].
Proof. reflexivity. Qed.

(** C1.  Under the built-in registry a manager built with the defaults,
    fitted and saved, does not load: the name inferred from the class
    [OneHotEncoder] is "onehotencoder", which is not a key. *)
Theorem C1_builtin_round_trip_fails :
  match fit_and_save "encoder.joblib" world0 with
  | (w, inr (m, out)) =>
      m = m_fitted /\
      snd (load "encoder.joblib" w) = inl (not_registered "onehotencoder")
  | (_, inl _) => False
  end.
Proof. vm_compute. split; reflexivity. Qed.

Lemma C2_witness :
  load_payload payload_builtin world0 =
    (logged [NewHandler None] world0, inl (not_registered "onehotencoder"))
  /\ load_payload payload_latin w_latin_as_written =
    (logged [NewHandler None] w_latin_as_written,
     inl (not_registered "éncoder")).
Proof.
  split.
  - exact (proj1 (C2_load_infers_scheme_name payload_builtin
                    (PEncoder (double "OneHotEncoder") None) world0
                    eq_refl eq_refl)).
  - exact (proj1 (C2_load_infers_scheme_name payload_latin
                    (PEncoder latin_cls None) w_latin_as_written
                    eq_refl eq_refl)).
Defined.

Lemma C4_witness :
  Forall (fun X' => ~ shows_nan X')
    (strategy_inputs
       (new_events world0 (snd (fst (fit X_abn y_abn (m_fitted, world0)))) ++
        new_events world0 (snd (fst (transform X_abn (m_fitted, world0)))))).
Proof.
  apply Forall_forall.
  apply (C4_strategy_sees_prepared_frames m_fitted world0 X_abn y_abn shows_nan).
  intros f v' X' [[= <-]|[= <-]] [= _ <-]; vm_compute; discriminate.
Defined.

Lemma C5_counterexample :
  registry w_broken !! "broken" = Some Broken /\
  init "broken" None nan no_kwargs w_broken =
    (logged [NewEncoder Broken no_kwargs] w_broken,
     inl (Exn "RuntimeError" "cannot construct")).
Proof. split; reflexivity. Qed.

Lemma C6_witness :
  (exists w' m,
     load_payload payload_encoder_only w_onehot = (w', inr m) /\
     encoder m = fitted_onehot /\
     missing_handler m = PHandler (CNaN, false))
  /\ (exists w' m,
       load_payload payload_latin w_latin_lowered = (w', inr m) /\
       encoder m = PEncoder latin_cls None /\
       missing_handler m = PHandler (CNaN, false)).
Proof.
  split.
  - destruct (C6_load_defaults payload_encoder_only fitted_onehot w_onehot
                eq_refl) as (_ & _ & _ & Heq & Hdefault).
    destruct (load_payload payload_encoder_only w_onehot)
      as [w' [e|m]] eqn:Hload.
    + vm_compute in Heq. discriminate Heq.
    + exists w', m. split; [reflexivity|]. by apply (Hdefault eq_refl w' m).
  - destruct (C6_load_defaults payload_latin (PEncoder latin_cls None)
                w_latin_lowered eq_refl) as (_ & _ & _ & Heq & Hdefault).
    destruct (load_payload payload_latin w_latin_lowered)
      as [w' [e|m]] eqn:Hload.
    + vm_compute in Heq. discriminate Heq.
    + exists w', m. split; [reflexivity|]. by apply (Hdefault eq_refl w' m).
Defined.

Lemma C7_witness :
  snd (fit [] y_abn (m_fresh, world0)) = inl (Exn "ValueError" "empty frame") /\
  snd (fit X_abn [] (m_fresh, world0)) =
    inl (Exn "ValueError" "X and y differ in length") /\
  snd (fit_transform X_abn [] (m_fresh, world0)) =
    inl (Exn "ValueError" "X and y differ in length") /\
  snd (transform X_abn (m_fresh, world0)) =
    inl (Exn "NotFittedError" "MissingHandler").
Proof.
  split; [|split; [|split]].
  - destruct (C7_collaborator_exceptions_propagate m_fresh world0 [] y_abn
                (CNaN, false) (double "OneHotEncoder") None
                (Exn "ValueError" "empty frame") eq_refl eq_refl)
      as (Hfit & _).
    by rewrite (Hfit (CNaN, false) eq_refl).
  - destruct (C7_collaborator_exceptions_propagate m_fresh world0 X_abn []
                (CNaN, false) (double "OneHotEncoder") None
                (Exn "ValueError" "X and y differ in length") eq_refl eq_refl)
      as (_ & Hfit & _).
    by apply (Hfit (CNaN, true) [[CStr "a"]; [CStr "b"]; [fill]] None).
  - destruct (C7_collaborator_exceptions_propagate m_fresh world0 X_abn []
                (CNaN, false) (double "OneHotEncoder") None
                (Exn "ValueError" "X and y differ in length") eq_refl eq_refl)
      as (_ & _ & _ & _ & Hft & _).
    by rewrite (Hft _ eq_refl).
  - destruct (C7_collaborator_exceptions_propagate m_fresh world0 X_abn y_abn
                (CNaN, false) (double "OneHotEncoder") None
                (Exn "NotFittedError" "MissingHandler") eq_refl eq_refl)
      as (_ & _ & Htr & _).
    by rewrite (Htr (CNaN, false) eq_refl).
Defined.

Lemma C9_witness :
  load_payload payload_version_only world0 = (world0, inl (key_error "encoder")).
Proof.
  apply (C9_encoder_key_is_mandatory payload_version_only "encoder.joblib" world0).
  reflexivity.
Defined.

Lemma C10_counterexample :
  registry w_onehot_broken !! "onehot" = Some Broken /\
  init_default w_onehot_broken =
    (logged [NewEncoder Broken no_kwargs] w_onehot_broken,
     inl (Exn "RuntimeError" "cannot construct")).
Proof. split; reflexivity. Qed.

End Scenarios.

(** * Further laws: loading, partial failure, scopes and data flow *)

Section FurtherLaws.
Context `{Collaborators}.
Context `{!PyStr}.
Context `{!Codec}.

Implicit Types (w : world) (m : manager) (c : encoder_cls) (X : Frame) (y : Series).

Ltac calls :=
  unfold fit_transform, fit, transform, save, profile, handler_fit_transform,
    handler_transform, encoder_fit, encoder_transform, joblib_dump,
    log, bind, ret, raise; simpl.

Lemma logged_logged evs1 evs2 w :
  logged evs2 (logged evs1 w) = logged (evs1 ++ evs2) w.
Proof. unfold logged; simpl. by rewrite app_assoc. Qed.

Lemma logged_nil w : logged [] w = w.
Proof. destruct w. unfold logged; simpl. by rewrite app_nil_r. Qed.

(** ** Loading *)

Lemma load_payload_succeeds payload enc w c' st0 :
  payload !! "encoder" = Some enc ->
  registry w !! str_lower (type_name enc) = Some c' ->
  cls_new c' no_kwargs = inr st0 ->
  load_payload payload w =
    (logged [NewHandler None; NewEncoder c' no_kwargs; NewProfiler;
             NewHandler (Some nan)] w,
     inr (Manager c' enc mm_new
            (default (PHandler (mh_new None)) (payload !! "missing_handler")))).
Proof.
  intros Henc Hreg Hnew. rewrite (load_payload_eq payload enc) by done.
  erewrite init_registered by (try exact Hnew; exact Hreg).
  by rewrite logged_logged.
Qed.

Lemma load_reads_disk path payload w :
  disk w !! path = Some payload ->
  load path w = load_payload payload w.
Proof. intros Hdisk. unfold load, joblib_load, bind. by rewrite Hdisk. Qed.

(** X4.  A successful load constructs and discards a placeholder strategy and
    a placeholder handler, constructs the default handler of line 78 even
    when the payload carries a handler, and makes a new profiler.  The
    manager it returns holds the decoded strategy under the class that is
    registered under the inferred name, which need not be the class of the
    decoded strategy. *)
Theorem load_constructs_placeholders path payload enc w c' st0 :
  disk w !! path = Some payload ->
  payload !! "encoder" = Some enc ->
  registry w !! str_lower (type_name enc) = Some c' ->
  cls_new c' no_kwargs = inr st0 ->
  load path w =
    (logged [NewHandler None; NewEncoder c' no_kwargs; NewProfiler;
             NewHandler (Some nan)] w,
     inr (Manager c' enc mm_new
            (default (PHandler (mh_new None)) (payload !! "missing_handler")))).
Proof.
  intros Hdisk Henc Hreg Hnew. rewrite (load_reads_disk path payload) by done.
  by eapply load_payload_succeeds.
Qed.

(** X5.  The keywords a manager was constructed with are not in the payload:
    [load] constructs the placeholder without keywords, and when that
    constructor raises, [load] raises the same exception although the
    decoded strategy is at hand. *)
Theorem load_needs_keywordless_constructor path payload enc w c' e :
  disk w !! path = Some payload ->
  payload !! "encoder" = Some enc ->
  registry w !! str_lower (type_name enc) = Some c' ->
  cls_new c' no_kwargs = inl e ->
  load path w =
    (logged [NewHandler None; NewEncoder c' no_kwargs] w, inl e).
Proof.
  intros Hdisk Henc Hreg Hnew. rewrite (load_reads_disk path payload) by done.
  rewrite (load_payload_eq payload enc) by done.
  erewrite init_constructor_raises by (try exact Hnew; exact Hreg).
  by rewrite logged_logged.
Qed.

(** X7.  [load] reads the keys "encoder" and "missing_handler" and no other:
    writing or deleting any other key of the payload changes nothing. *)
Theorem load_ignores_other_keys payload k v w :
  k <> "encoder" ->
  k <> "missing_handler" ->
  load_payload (<[k := v]> payload) w = load_payload payload w /\
  load_payload (delete k payload) w = load_payload payload w.
Proof.
  intros Hne Hnm. split; apply load_payload_ext.
  - by rewrite lookup_insert_ne.
  - by rewrite lookup_insert_ne.
  - by rewrite lookup_delete_ne.
  - by rewrite lookup_delete_ne.
Qed.

(** ** Lower-cased names *)

Lemma lower_ascii_idem a : lower_ascii (lower_ascii a) = lower_ascii a.
Proof. by destruct a as [[] [] [] [] [] [] [] []]. Qed.

Lemma lower_idem s : lower (lower s) = lower s.
Proof.
  induction s as [|a s IH]; [done|]. simpl. by rewrite lower_ascii_idem, IH.
Qed.

(** A construction reads the registry at its name and nowhere else. *)
Lemma init_reads_one_key encoding injected s kw w r :
  r !! encoding = registry w !! encoding ->
  init encoding injected s kw (with_registry r w) =
    (with_registry r (fst (init encoding injected s kw w)),
     snd (init encoding injected s kw w)).
Proof.
  intros Hsame. destruct (registry w !! encoding) as [c|] eqn:Hreg.
  - destruct (cls_new c kw) as [e|st] eqn:Hnew.
    + rewrite (init_constructor_raises _ _ _ _ w c e) by done.
      by rewrite (init_constructor_raises _ _ _ _ (with_registry r w) c e).
    + rewrite (init_registered _ _ _ _ w c st) by done.
      by rewrite (init_registered _ _ _ _ (with_registry r w) c st).
  - rewrite (init_unregistered _ _ _ _ w) by done.
    by rewrite (init_unregistered _ _ _ _ (with_registry r w)).
Qed.

(** X6.  [load] looks a scheme up under a lower-cased name only: a class
    registered under a name that has an upper-case letter can be
    constructed by that name but is never found by [load], whose outcome
    is what it was before the registration. *)
Theorem load_never_resolves_mixed_case name c payload w :
  lower name <> name ->
  resolve name (fst (register name c w)) = (fst (register name c w), inr c) /\
  snd (load_payload payload (fst (register name c w))) =
  snd (load_payload payload w).
Proof.
  intros Hmixed. split.
  - unfold resolve. simpl. by rewrite lookup_insert_eq.
  - destruct (payload !! "encoder") as [enc|] eqn:Henc.
    + rewrite !(load_payload_eq payload enc) by done.
      change (logged [NewHandler None] (fst (register name c w)))
        with (with_registry (<[name := c]> (registry w))
                (logged [NewHandler None] w)).
      rewrite init_reads_one_key.
      * by destruct (init _ _ _ _ (logged [NewHandler None] w)) as [w1 [e|m0]].
      * simpl. apply lookup_insert_ne. intros ->. apply Hmixed.
        apply str_lower_lowered.
    + by rewrite !load_payload_no_encoder.
Qed.

(** ** Saving and loading again, where the name resolves *)

(** The strategy and the handler [transform] leaves depend on the strategy
    and the handler it started with alone. *)
Lemma transform_states m1 w1 m2 w2 X :
  encoder m1 = encoder m2 ->
  missing_handler m1 = missing_handler m2 ->
  encoder (fst (fst (transform X (m1, w1)))) =
  encoder (fst (fst (transform X (m2, w2)))) /\
  missing_handler (fst (fst (transform X (m1, w1)))) =
  missing_handler (fst (fst (transform X (m2, w2)))).
Proof.
  destruct m1 as [ec1 enc1 p1 mh1], m2 as [ec2 enc2 p2 mh2]; simpl.
  intros -> ->. calls.
  destruct (getattr_transform mh2) as [f|]; simpl; [|done].
  destruct (f X) as [v' [e|X']]; simpl; [done|].
  destruct (getattr_transform enc2) as [g|]; simpl; [|done].
  by destruct (g X') as [enc' r].
Qed.

(** X1.  The round trip, with what it needs: when [save] returned, the
    name [str.lower] gives for the class of the strategy is a key of the
    registry and the class under that key constructs without keywords, the
    file [save] wrote loads, to a manager with the saved strategy and
    handler and a new profiler.  Saving that manager writes the same
    payload, and its [transform] returns what the saved manager's returns
    and leaves the same strategy and handler. *)
Theorem save_then_load_when_name_resolves m w path X c st c' st0 :
  snd (save path (m, w)) = inr tt ->
  encoder m = PEncoder c st ->
  registry w !! str_lower (cls_name c) = Some c' ->
  cls_new c' no_kwargs = inr st0 ->
  let loaded := Manager c' (encoder m) mm_new (missing_handler m) in
  snd (load path (snd (fst (save path (m, w))))) = inr loaded
  /\ payload_of loaded = payload_of m
  /\ forall w1 w2,
       snd (transform X (loaded, w1)) = snd (transform X (m, w2)) /\
       encoder (fst (fst (transform X (loaded, w1)))) =
       encoder (fst (fst (transform X (m, w2)))) /\
       missing_handler (fst (fst (transform X (loaded, w1)))) =
       missing_handler (fst (fst (transform X (m, w2)))).
Proof.
  intros Hsaved Henc Hreg Hnew loaded. subst loaded. split; [|split].
  - rewrite load_after_save by done.
    rewrite (save_returns m w path Hsaved). cbn [fst snd].
    destruct (payload_of_lookup m) as (Hpe & Hpm & _).
    erewrite load_payload_succeeds;
      [| exact Hpe | rewrite Henc; exact Hreg | exact Hnew].
    by rewrite Hpm.
  - reflexivity.
  - intros w1 w2. split; [by apply transform_result|].
    by apply transform_states.
Qed.

(** X3.  The way to make a scheme loadable: once a class that constructs
    without keywords is registered under the name [str.lower] gives for
    its own name, every manager holding a strategy of that class loads
    again from the file a [save] that returned wrote, with that strategy
    and its handler. *)
Theorem registering_lowercased_name_makes_loadable m w path c st st0 :
  let w' := fst (register (str_lower (cls_name c)) c w) in
  snd (save path (m, w')) = inr tt ->
  encoder m = PEncoder c st ->
  cls_new c no_kwargs = inr st0 ->
  snd (load path (snd (fst (save path (m, w'))))) =
  inr (Manager c (encoder m) mm_new (missing_handler m)).
Proof.
  intros w' Hsaved Henc Hnew. rewrite load_after_save by done.
  rewrite (save_returns m w' path Hsaved). cbn [fst snd].
  destruct (payload_of_lookup m) as (Hpe & Hpm & _).
  erewrite load_payload_succeeds; [| exact Hpe | | exact Hnew].
  - by rewrite Hpm.
  - rewrite Henc. simpl. apply lookup_insert_eq.
Qed.

(** ** The shape of a manager *)

Lemma fit_coherent m w X y :
  coherent m -> coherent (fst (fst (fit X y (m, w)))).
Proof.
  destruct m as [ec enc p mh]. intros [[st Henc] [h Hmh]]; simpl in *; subst.
  rewrite (fit_eq _ w X y h ec st) by done.
  destruct (mh_fit_transform h X) as [h' [e|X']]; simpl.
  - split; simpl; eauto.
  - destruct (cls_fit ec st X' y) as [st' r]. split; simpl; eauto.
Qed.

Lemma transform_coherent m w X :
  coherent m -> coherent (fst (fst (transform X (m, w)))).
Proof.
  destruct m as [ec enc p mh]. intros [[st Henc] [h Hmh]]; simpl in *; subst.
  rewrite (transform_eq _ w X h ec st) by done.
  destruct (mh_transform h X) as [h' [e|X']]; simpl.
  - split; simpl; eauto.
  - destruct (cls_transform ec st X') as [st' r]. split; simpl; eauto.
Qed.

Lemma save_keeps_manager m w path : fst (fst (save path (m, w))) = m.
Proof.
  unfold save, joblib_dump.
  by destruct (dump_fails (payload_of m) path (disk w)) as [[e files]|].
Qed.

(** X13.  Every manager a construction returns has its strategy an instance of
    the class it resolved and its handler a [MissingHandler], and [fit],
    [transform], [fit_transform] and [save] keep a manager so, whether they
    return or raise. *)
Theorem methods_keep_manager_coherent m w X y path :
  coherent m ->
  coherent (fst (fst (fit X y (m, w))))
  /\ coherent (fst (fst (transform X (m, w))))
  /\ coherent (fst (fst (fit_transform X y (m, w))))
  /\ coherent (fst (fst (save path (m, w))))
  /\ forall encoding injected s kw w' built,
       init encoding injected s kw w = (w', inr built) -> coherent built.
Proof.
  intros Hm. split; [by apply fit_coherent|].
  split; [by apply transform_coherent|].
  split; [|split; [by rewrite save_keeps_manager|]].
  - unfold fit_transform, bind.
    pose proof (fit_coherent m w X y Hm) as Hfit.
    destruct (fit X y (m, w)) as [[m1 w1] [e|u]]; simpl in *; [done|].
    by apply transform_coherent.
  - intros encoding injected s kw w' built.
    destruct (registry w !! encoding) as [c|] eqn:Hreg.
    + destruct (cls_new c kw) as [e|st] eqn:Hnew.
      * by rewrite (init_constructor_raises _ _ _ _ w c e).
      * rewrite (init_registered _ _ _ _ w c st) by done.
        intros [= _ <-]. split; simpl; eauto.
    + by rewrite init_unregistered.
Qed.

(** ** Partial failure and data flow *)

(** X9.  [fit] is not atomic: when the handler's [fit_transform] returned and
    the strategy's [fit] raises, the manager keeps the handler as fitted
    and the strategy as the failed call left it, and the scope "fit" was
    left. *)
Theorem fit_failure_keeps_fitted_handler m w X y h c st h' X' st' e :
  missing_handler m = PHandler h ->
  encoder m = PEncoder c st ->
  mh_fit_transform h X = (h', inr X') ->
  cls_fit c st X' y = (st', inl e) ->
  fit X y (m, w) =
    ((Manager (encoder_cls_of m) (PEncoder c st')
        (mm_exit "fit" (mm_enter "fit" (memory_manager m))) (PHandler h'),
      logged [HandlerFitTransform X; ProfileEnter "fit"; EncoderFit X' y;
              ProfileExit "fit"] w), inl e).
Proof.
  intros Hmh Henc Hft Hfit. rewrite (fit_eq m w X y h c st) by done.
  by rewrite Hft, Hfit.
Qed.

(** X10.  The data flow of [fit_transform] when every step returns: the handler
    is fitted on [X] and prepares it, the strategy is fitted on that
    frame, then the fitted handler prepares [X] again and the fitted
    strategy transforms that second frame. *)
Theorem fit_transform_data_flow m w X y h c st h1 X1 st1 h2 X2 st2 out :
  missing_handler m = PHandler h ->
  encoder m = PEncoder c st ->
  mh_fit_transform h X = (h1, inr X1) ->
  cls_fit c st X1 y = (st1, inr tt) ->
  mh_transform h1 X = (h2, inr X2) ->
  cls_transform c st1 X2 = (st2, inr out) ->
  fit_transform X y (m, w) =
    ((Manager (encoder_cls_of m) (PEncoder c st2)
        (mm_exit "transform" (mm_enter "transform"
           (mm_exit "fit" (mm_enter "fit" (memory_manager m)))))
        (PHandler h2),
      logged [HandlerFitTransform X; ProfileEnter "fit"; EncoderFit X1 y;
              ProfileExit "fit"; HandlerTransform X;
              ProfileEnter "transform"; EncoderTransform X2;
              ProfileExit "transform"] w), inr out).
Proof.
  intros Hmh Henc Hft Hfit Ht Htr. unfold fit_transform, bind.
  rewrite (fit_eq m w X y h c st) by done. rewrite Hft, Hfit.
  rewrite (transform_eq _ _ X h1 c st1) by done. rewrite Ht, Htr.
  simpl. by rewrite logged_logged.
Qed.

(** X11.  The manager adds no state of its own to [transform]: when the
    [transform] of the handler and of the strategy leave their objects as
    they were, [transform] leaves the strategy and the handler of the
    manager as they were, and a second [transform] of the same frame
    returns what the first returned. *)
Theorem transform_twice_same_output m w X h c st X' r :
  missing_handler m = PHandler h ->
  encoder m = PEncoder c st ->
  mh_transform h X = (h, inr X') ->
  cls_transform c st X' = (st, r) ->
  let after := fst (transform X (m, w)) in
  snd (transform X (m, w)) = r
  /\ encoder (fst after) = encoder m
  /\ missing_handler (fst after) = missing_handler m
  /\ snd (transform X after) = r.
Proof.
  intros Hmh Henc Ht Htr after. subst after.
  rewrite (transform_eq m w X h c st) by done. rewrite Ht, Htr. simpl.
  repeat split; try done.
  rewrite (transform_eq _ _ X h c st) by done. by rewrite Ht, Htr.
Qed.

(** ** Profiler scopes *)

(** A trace that closes its scopes can be followed by another. *)
Lemma scoped_app evs1 evs2 open :
  scoped open evs1 = true ->
  scoped open (evs1 ++ evs2) = scoped [] evs2.
Proof.
  revert open. induction evs1 as [|e evs1 IH]; intros open; simpl.
  - by destruct open.
  - destruct e; try apply IH.
    + by destruct open; [apply IH|].
    + by destruct open; [apply IH|].
    + destruct open as [|l [|l' open]]; try done.
      destruct (String.eqb l "fit"); [apply IH|done].
    + destruct open as [|l [|l' open]]; try done.
      destruct (String.eqb l "transform"); [apply IH|done].
    + destruct open as [|l open]; [done|].
      destruct (String.eqb label l); [apply IH|done].
Qed.

Lemma fit_scoped m w X y :
  exists evs, snd (fst (fit X y (m, w))) = logged evs w /\ scoped [] evs = true.
Proof.
  destruct m as [ec enc p mh]. calls.
  destruct (getattr_fit_transform mh) as [f|]; simpl.
  2: { exists []. by rewrite logged_nil. }
  destruct (f X) as [v' [e|X1]]; simpl.
  - by exists [HandlerFitTransform X].
  - destruct (getattr_fit enc) as [g|]; simpl.
    + destruct (g X1 y) as [enc' r]; simpl.
      exists [HandlerFitTransform X; ProfileEnter "fit"; EncoderFit X1 y;
              ProfileExit "fit"].
      split; [unfold logged; simpl; by rewrite <- !app_assoc|done].
    + exists [HandlerFitTransform X; ProfileEnter "fit"; ProfileExit "fit"].
      split; [unfold logged; simpl; by rewrite <- !app_assoc|done].
Qed.

Lemma transform_scoped m w X :
  exists evs,
    snd (fst (transform X (m, w))) = logged evs w /\ scoped [] evs = true.
Proof.
  destruct m as [ec enc p mh]. calls.
  destruct (getattr_transform mh) as [f|]; simpl.
  2: { exists []. by rewrite logged_nil. }
  destruct (f X) as [v' [e|X1]]; simpl.
  - by exists [HandlerTransform X].
  - destruct (getattr_transform enc) as [g|]; simpl.
    + destruct (g X1) as [enc' r]; simpl.
      exists [HandlerTransform X; ProfileEnter "transform"; EncoderTransform X1;
              ProfileExit "transform"].
      split; [unfold logged; simpl; by rewrite <- !app_assoc|done].
    + exists [HandlerTransform X; ProfileEnter "transform";
              ProfileExit "transform"].
      split; [unfold logged; simpl; by rewrite <- !app_assoc|done].
Qed.

Lemma fit_transform_scoped m w X y :
  exists evs,
    snd (fst (fit_transform X y (m, w))) = logged evs w /\
    scoped [] evs = true.
Proof.
  unfold fit_transform, bind.
  destruct (fit_scoped m w X y) as (evf & Hwf & Hsf).
  destruct (fit X y (m, w)) as [[m1 w1] [e|u]]; simpl in *; [by exists evf|].
  destruct (transform_scoped m1 w1 X) as (evt & Hwt & Hst).
  exists (evf ++ evt). split.
  - by rewrite Hwt, Hwf, logged_logged.
  - by rewrite (scoped_app evf evt []).
Qed.

(** X12.  Only the strategy is profiled: in the calls [fit], [transform] and
    [fit_transform] make, from any manager and whether they return or
    raise, the handler is called outside every profiler scope, the
    strategy's [fit] inside the scope "fit" and its [transform] inside the
    scope "transform", and every scope entered is left. *)
Theorem strategy_calls_are_scoped m w X y :
  scoped [] (new_events w (snd (fst (fit X y (m, w))))) = true
  /\ scoped [] (new_events w (snd (fst (transform X (m, w))))) = true
  /\ scoped [] (new_events w (snd (fst (fit_transform X y (m, w))))) = true.
Proof.
  destruct (fit_scoped m w X y) as (evf & -> & Hf).
  destruct (transform_scoped m w X) as (evt & -> & Ht).
  destruct (fit_transform_scoped m w X y) as (evs & -> & Hs).
  by rewrite !new_events_logged.
Qed.

(** ** What no call touches *)

(** X14.  A construction, a load and the three fitting methods leave the
    registry and the files as they were and only add to the trace.  [save]
    leaves the manager, the registry and the trace as they were, whether
    it returns or raises: when it returns, the file at its path holds the
    payload of lines 66-70; when it raises, the exception is the one
    [joblib.dump] raised. *)
Theorem only_register_and_save_write m w X y path encoding injected s kw :
  (exists evs, fst (init encoding injected s kw w) = logged evs w)
  /\ (exists evs, fst (load path w) = logged evs w)
  /\ (exists evs, snd (fst (fit X y (m, w))) = logged evs w)
  /\ (exists evs, snd (fst (transform X (m, w))) = logged evs w)
  /\ (exists evs, snd (fst (fit_transform X y (m, w))) = logged evs w)
  /\ (fst (fst (save path (m, w))) = m
      /\ registry (snd (fst (save path (m, w)))) = registry w
      /\ trace (snd (fst (save path (m, w)))) = trace w)
  /\ match snd (save path (m, w)) with
     | inr _ => disk (snd (fst (save path (m, w)))) !! path = Some (payload_of m)
     | inl e =>
         exists files, dump_fails (payload_of m) path (disk w) = Some (e, files)
     end.
Proof.
  assert (Hinit : forall n w0, exists evs,
             fst (init n None nan no_kwargs w0) = logged evs w0).
  { intros n w0. destruct (registry w0 !! n) as [c|] eqn:Hreg.
    - destruct (cls_new c no_kwargs) as [e|st] eqn:Hnew.
      + rewrite (init_constructor_raises _ _ _ _ w0 c e) by done. by eexists.
      + rewrite (init_registered _ _ _ _ w0 c st) by done. by eexists.
    - rewrite init_unregistered by done. exists []. by rewrite logged_nil. }
  split; [|split; [|split; [|split; [|split; [|split]]]]].
  - destruct (registry w !! encoding) as [c|] eqn:Hreg.
    + destruct (cls_new c kw) as [e|st] eqn:Hnew.
      * rewrite (init_constructor_raises _ _ _ _ w c e) by done. by eexists.
      * rewrite (init_registered _ _ _ _ w c st) by done. by eexists.
    + rewrite init_unregistered by done. exists []. by rewrite logged_nil.
  - unfold load, joblib_load, bind.
    destruct (disk w !! path) as [payload|].
    2: { exists []. by rewrite logged_nil. }
    destruct (payload !! "encoder") as [enc|] eqn:Henc.
    + rewrite (load_payload_eq payload enc) by done.
      destruct (Hinit (str_lower (type_name enc)) (logged [NewHandler None] w))
        as (evs & Hevs).
      destruct (init _ _ _ _ _) as [w1 [e|m0]]; simpl in *; subst w1;
        exists ([NewHandler None] ++ evs); by rewrite logged_logged.
    + rewrite load_payload_no_encoder by done. exists []. by rewrite logged_nil.
  - destruct (fit_scoped m w X y) as (evs & Hw & _). eauto.
  - destruct (transform_scoped m w X) as (evs & Hw & _). eauto.
  - destruct (fit_transform_scoped m w X y) as (evs & Hw & _). eauto.
  - unfold save, joblib_dump.
    by destruct (dump_fails (payload_of m) path (disk w)) as [[e files]|].
  - unfold save, joblib_dump.
    destruct (dump_fails (payload_of m) path (disk w)) as [[e files]|]; simpl.
    + by exists files.
    + apply lookup_insert_eq.
Qed.

(** ** A payload of the wrong shape *)

(** X8.  [load] checks no type: a payload whose "missing_handler" is an object
    without the two handler methods loads, when the strategy's name
    resolves, and the manager it returns raises [AttributeError] from
    [fit] and from [transform] before any collaborator is called. *)
Theorem load_checks_no_types payload enc v w c' st0 X y :
  payload !! "encoder" = Some enc ->
  payload !! "missing_handler" = Some v ->
  getattr_fit_transform v = None ->
  getattr_transform v = None ->
  registry w !! str_lower (type_name enc) = Some c' ->
  cls_new c' no_kwargs = inr st0 ->
  exists w' loaded,
    load_payload payload w = (w', inr loaded)
    /\ missing_handler loaded = v
    /\ fit X y (loaded, w') =
         ((loaded, w'), inl (attribute_error (type_name v) "fit_transform"))
    /\ transform X (loaded, w') =
         ((loaded, w'), inl (attribute_error (type_name v) "transform")).
Proof.
  intros Henc Hmh Hft Ht Hreg Hnew.
  rewrite (load_payload_succeeds payload enc w c' st0) by done.
  rewrite Hmh. eexists _, _. split; [reflexivity|]. split; [done|].
  calls. by rewrite Hft, Ht.
Qed.

Section BuiltinSchemes.
Context `{!Builtins}.

(** X2.  Under the built-in registry no manager of a built-in scheme loads
    again: for each of the four classes the inferred name is not a key,
    and the load of the file just saved, by a [save] that returned, raises
    the [ValueError] of line 39 for that name. *)
Theorem builtin_schemes_never_load m w path c st :
  snd (save path (m, w)) = inr tt ->
  registry w = registry0 ->
  encoder m = PEncoder c st ->
  c ∈ [WOEGuard; TargetEncoder; LeaveOneOutEncoder; OneHotEncoder] ->
  lower (cls_name c) ∈
    ["woeguard"; "targetencoder"; "leaveoneoutencoder"; "onehotencoder"]
  /\ snd (load path (snd (fst (save path (m, w))))) =
     inl (not_registered (lower (cls_name c))).
Proof.
  intros Hsaved Hreg Henc Hc. split.
  - repeat (apply elem_of_cons in Hc as [->|Hc]);
      [rewrite WOEGuard_name | rewrite TargetEncoder_name
      | rewrite LeaveOneOutEncoder_name | rewrite OneHotEncoder_name
      | by apply elem_of_nil in Hc]; cbn [lower]; set_solver.
  - by eapply builtin_round_trip_fails.
Qed.

End BuiltinSchemes.

End FurtherLaws.

(** * The further laws on the test doubles *)

Section FurtherScenarios.
Import Doubles.
Existing Instance collab.
Existing Instance pystr.
Existing Instance codec.
Existing Instance builtins.

Lemma load_constructs_placeholders_witness :
  load "encoder.joblib" w_onehot_file =
    (logged [NewHandler None; NewEncoder (double "OneHot") no_kwargs;
             NewProfiler; NewHandler (Some nan)] w_onehot_file,
     inr (Manager (double "OneHot") fitted_onehot [] (PHandler (CNaN, false)))).
Proof.
  apply (load_constructs_placeholders "encoder.joblib" payload_encoder_only
           fitted_onehot w_onehot_file (double "OneHot") None); reflexivity.
Defined.

Lemma load_needs_keywordless_constructor_witness :
  load "encoder.joblib" w_broken_file =
    (logged [NewHandler None; NewEncoder Broken no_kwargs] w_broken_file,
     inl (Exn "RuntimeError" "cannot construct")).
Proof.
  apply (load_needs_keywordless_constructor "encoder.joblib" payload_broken
           (PEncoder Broken None) w_broken_file Broken); reflexivity.
Defined.

Lemma load_ignores_other_keys_witness :
  load_payload (<["created" := PStr "today"]> payload_encoder_only) w_onehot =
  load_payload payload_encoder_only w_onehot.
Proof.
  apply (load_ignores_other_keys payload_encoder_only "created"
           (PStr "today") w_onehot); discriminate.
Defined.

Lemma load_never_resolves_mixed_case_witness :
  snd (load_payload payload_builtin
         (fst (register "OneHotEncoder" OneHotEncoder world0))) =
  snd (load_payload payload_builtin world0).
Proof.
  apply (load_never_resolves_mixed_case "OneHotEncoder" OneHotEncoder
           payload_builtin world0).
  vm_compute. discriminate.
Defined.

Lemma save_then_load_when_name_resolves_witness :
  snd (load "encoder.joblib"
         (snd (fst (save "encoder.joblib" (m_named, w_onehot))))) =
  inr m_named.
Proof.
  apply (save_then_load_when_name_resolves m_named w_onehot "encoder.joblib"
           X_abn (double "OneHot") (Some [CStr "a"; CStr "b"; fill])
           (double "OneHot") None); reflexivity.
Defined.

(** The empty path names no file: [save] raises what the codec raises and
    leaves the manager and the process as they were. *)
Example save_on_unwritable_path :
  save EmptyString (m_fitted, world0) =
    ((m_fitted, world0), inl (Exn "FileNotFoundError" EmptyString)).
Proof. reflexivity. Qed.

Lemma registering_lowercased_name_makes_loadable_witness :
  snd (load "encoder.joblib"
         (snd (fst (save "encoder.joblib"
                      (m_fitted,
                       fst (register "onehotencoder" OneHotEncoder world0)))))) =
  inr m_fitted.
Proof.
  exact (registering_lowercased_name_makes_loadable m_fitted world0
           "encoder.joblib" (double "OneHotEncoder")
           (Some [CStr "a"; CStr "b"; fill]) None eq_refl eq_refl eq_refl).
Defined.

Lemma methods_keep_manager_coherent_witness :
  coherent (fst (fst (fit_transform X_abn y_abn (m_fresh, world0)))).
Proof.
  apply (methods_keep_manager_coherent m_fresh world0 X_abn y_abn
           "encoder.joblib").
  split; eexists; reflexivity.
Defined.

Lemma fit_failure_keeps_fitted_handler_witness :
  fit X_abn [] (m_fresh, world0) =
    ((Manager (double "OneHotEncoder") (PEncoder (double "OneHotEncoder") None)
        [] (PHandler (CNaN, true)),
      logged [HandlerFitTransform X_abn; ProfileEnter "fit";
              EncoderFit [[CStr "a"]; [CStr "b"]; [fill]] [];
              ProfileExit "fit"] world0),
     inl (Exn "ValueError" "X and y differ in length")).
Proof.
  apply (fit_failure_keeps_fitted_handler m_fresh world0 X_abn []
           (CNaN, false) (double "OneHotEncoder") None (CNaN, true)
           [[CStr "a"]; [CStr "b"]; [fill]] None); reflexivity.
Defined.

Lemma fit_transform_data_flow_witness :
  fit_transform X_abn y_abn (m_fresh, world0) =
    ((m_fitted,
      logged [HandlerFitTransform X_abn; ProfileEnter "fit";
              EncoderFit [[CStr "a"]; [CStr "b"]; [fill]] y_abn;
              ProfileExit "fit"; HandlerTransform X_abn;
              ProfileEnter "transform";
              EncoderTransform [[CStr "a"]; [CStr "b"]; [fill]];
              ProfileExit "transform"] world0), inr out_abn).
Proof.
  apply (fit_transform_data_flow m_fresh world0 X_abn y_abn
           (CNaN, false) (double "OneHotEncoder") None
           (CNaN, true) [[CStr "a"]; [CStr "b"]; [fill]]
           (Some [CStr "a"; CStr "b"; fill])
           (CNaN, true) [[CStr "a"]; [CStr "b"]; [fill]]
           (Some [CStr "a"; CStr "b"; fill]) out_abn); reflexivity.
Defined.

Lemma transform_twice_same_output_witness :
  snd (transform X_abn (fst (transform X_abn (m_fitted, world0)))) =
  inr out_abn.
Proof.
  apply (transform_twice_same_output m_fitted world0 X_abn (CNaN, true)
           (double "OneHotEncoder") (Some [CStr "a"; CStr "b"; fill])
           [[CStr "a"]; [CStr "b"]; [fill]] (inr out_abn)); reflexivity.
Defined.

Lemma load_checks_no_types_witness :
  exists w' loaded,
    load_payload payload_int_handler w_onehot = (w', inr loaded)
    /\ missing_handler loaded = PInt 0
    /\ fit X_abn y_abn (loaded, w') =
         ((loaded, w'),
          inl (Exn "AttributeError" "'int' object has no attribute 'fit_transform'"))
    /\ transform X_abn (loaded, w') =
         ((loaded, w'),
          inl (Exn "AttributeError" "'int' object has no attribute 'transform'")).
Proof.
  apply (load_checks_no_types payload_int_handler fitted_onehot (PInt 0)
           w_onehot (double "OneHot") None X_abn y_abn); reflexivity.
Defined.

Lemma builtin_schemes_never_load_witness :
  snd (load "woe.joblib" (snd (fst (save "woe.joblib" (m_woe, world0))))) =
  inl (not_registered "woeguard").
Proof.
  refine (proj2 (builtin_schemes_never_load m_woe world0 "woe.joblib"
                   WOEGuard None _ _ _ _));
    [reflexivity | reflexivity | reflexivity | apply list_elem_of_here].
Defined.

End FurtherScenarios.
